(** * uv_metadata.c: the two-slot metadata store of the libuv raft backend

    A shallow embedding of [src/uv_metadata.c] and the properties of its
    record codec, slot naming, recovery ([uvMetadataLoad]) and write path
    ([uvMetadataStore]).

    Conventions of the embedding:
    - C integers are [Z] with the wrap-around of their type written out
      ([u64], [u32], [u16], [to_int]);
    - a [struct uvMetadata *] owned by the caller is a pointer into [mem];
      a pointer to a local of the calling function is an in/out value;
    - a C function returning an [int] code returns a [status];
    - a failed [assert] aborts the program: the computation yields [None]. *)

From Stdlib Require Import ZArith Lia String List DecimalString.
From Stdlib.Strings Require Import Byte.
From stdpp Require Import gmap strings list fin_maps.

Open Scope Z_scope.

(** ** Machine integers *)

Module CInt.

(** [uint64_t], [unsigned long long]. *)
Definition u64 (z : Z) : Z := z mod 2 ^ 64.

(** [unsigned]. *)
Definition u32 (z : Z) : Z := z mod 2 ^ 32.

(** [unsigned short]. *)
Definition u16 (z : Z) : Z := z mod 2 ^ 16.

(** Conversion to a signed type of [w] bits: the value is reduced modulo 2^w
    into the signed range (what gcc and clang document for out-of-range
    conversions). *)
Definition to_signed (w : Z) (z : Z) : Z :=
  (z + 2 ^ (w - 1)) mod 2 ^ w - 2 ^ (w - 1).

(** Conversion to [int], 32 bits wide. *)
Definition to_int (z : Z) : Z := to_signed 32 z.

(** C's [%] on [int]: the remainder has the sign of the dividend. *)
Definition c_mod (a b : Z) : Z := Z.rem a b.

Definition is_u64 (z : Z) : Prop := 0 <= z < 2 ^ 64.

End CInt.
Import CInt.

(** ** Data model *)

(** Modelled from the spec: [struct uvMetadata] is declared in uv.h, which is
    not part of the sources at hand; the spec gives three unsigned 64-bit
    fields. *)
Record uvMetadata : Type := mkMetadata {
  version : Z;
  term : Z;
  voted_for : Z
}.

Definition set_version (m : uvMetadata) (v : Z) : uvMetadata :=
  mkMetadata v (term m) (voted_for m).
Definition set_term (m : uvMetadata) (t : Z) : uvMetadata :=
  mkMetadata (version m) t (voted_for m).
Definition set_voted_for (m : uvMetadata) (v : Z) : uvMetadata :=
  mkMetadata (version m) (term m) v.

(** Every field holds a value of its C type. *)
Definition valid (m : uvMetadata) : Prop :=
  is_u64 (version m) /\ is_u64 (term m) /\ is_u64 (voted_for m).

(** Modelled from the spec: the return codes are constants of raft.h and
    uv_error.h, not part of the sources at hand; only that they are distinct
    and differ from [0] matters.  [OK] is the literal [0] of the source,
    the RAFT_ codes are the error kinds Malformed, Corrupt and IOError of the
    spec, [UV__NODATA] is the short read of the filesystem layer and
    [UV__ERROR] stands for every other failure it reports. *)
Inductive status : Type :=
  | OK
  | RAFT_MALFORMED
  | RAFT_CORRUPT
  | RAFT_IOERR
  | UV__ERROR
  | UV__NODATA.

#[global] Instance status_eq_dec : EqDecision status.
Proof. solve_decision. Defined.

(** [rv != 0] *)
Definition nonzero (rv : status) : bool :=
  match rv with OK => false | _ => true end.

(** Modelled from the spec: [UV__DISK_FORMAT] is a macro of uv.h, not part of
    the sources at hand.  The spec fixes only that it is one constant, the
    tag of the on-disk layout; it is an [int] constant, here the first
    layout version. *)
Definition UV__DISK_FORMAT : Z := 1.

Definition METADATA_FILENAME_PREFIX : string := "metadata".

(** Format, version, term, vote *)
Definition METADATA_CONTENT_SIZE : nat := 8 * 4.

(** ** byte.h *)

Module ByteOrder.

Definition byte_of_Z (z : Z) : byte :=
  match Byte.of_N (Z.to_N (z mod 256)) with
  | Some b => b
  | None => x00
  end.

Definition Z_of_byte (b : byte) : Z := Z.of_N (Byte.to_N b).

(** The [n] low-order bytes of [z], least significant first. *)
Fixpoint le_bytes (n : nat) (z : Z) : list byte :=
  match n with
  | O => []
  | S k => byte_of_Z z :: le_bytes k (z / 256)
  end.

Fixpoint le_value (bs : list byte) : Z :=
  match bs with
  | [] => 0
  | b :: rest => Z_of_byte b + 256 * le_value rest
  end.

End ByteOrder.
Import ByteOrder.

(** Modelled from the spec: [bytePut64] and [byteGet64] are helpers of
    byte.h, not part of the sources at hand.  The spec asks for 64-bit
    fields in one fixed byte order shared by encode and decode; the order
    taken here is little-endian.  A write cursor is the run of bytes written
    so far, a read cursor the bytes still to read. *)
Definition bytePut64 (cursor : list byte) (value : Z) : list byte :=
  cursor ++ le_bytes 8 value.

Definition byteGet64 (cursor : list byte) : Z * list byte :=
  (le_value (take 8 cursor), drop 8 cursor).

(** ** Record codec *)

(** Encode the content of a metadata file. *)
Definition encode (metadata : uvMetadata) : list byte :=
  let cursor := [] in
  let cursor := bytePut64 cursor UV__DISK_FORMAT in
  let cursor := bytePut64 cursor (version metadata) in
  let cursor := bytePut64 cursor (term metadata) in
  let cursor := bytePut64 cursor (voted_for metadata) in
  cursor.

(** Decode the content of a metadata file.  [metadata] is the record behind
    the out-pointer: it comes back untouched when the tag is refused.
    [format] is declared [unsigned], so the 64-bit tag read from the buffer is
    cut to its 32 low bits before the comparison. *)
Definition decode (buf : list byte) (metadata : uvMetadata)
  : status * uvMetadata :=
  let cursor := buf in
  let '(tag, cursor) := byteGet64 cursor in
  let format := u32 tag in
  if negb (format =? UV__DISK_FORMAT) then (RAFT_MALFORMED, metadata)
  else
    let '(v, cursor) := byteGet64 cursor in
    let metadata := set_version metadata v in
    let '(v, cursor) := byteGet64 cursor in
    let metadata := set_term metadata v in
    let '(v, cursor) := byteGet64 cursor in
    let metadata := set_voted_for metadata v in
    (OK, metadata).

(** Render the filename of the metadata file with index [n]. *)
Definition filenameOf (n : Z) : string :=
  METADATA_FILENAME_PREFIX ++ NilZero.string_of_int (Z.to_int n).

(** Return the metadata file index associated with the given version.  The
    parameter is an [int]. *)
Definition indexOf (version : Z) : Z :=
  if c_mod version 2 =? 1 then 1 else 2.

(** ** Program state *)

(** Severity of a log record (RAFT_DEBUG, RAFT_WARN, RAFT_ERROR). *)
Inductive level : Type := DEBUG | WARN | ERROR.

#[global] Instance level_eq_dec : EqDecision level.
Proof. solve_decision. Defined.

(** One argument of a printf-style call.  [UvDir] stands for the path
    [uv->dir] and [ErrMsgString] for the text of a [struct ErrMsg] buffer:
    that text is produced outside the sources at hand and is not modelled. *)
Inductive arg : Type :=
  | Str (s : string)
  | Num (z : Z)
  | UvDir
  | ErrMsgString.

Record log_record : Type := mkLog {
  log_level : level;
  log_format : string;
  log_args : list arg
}.

(** The calls made to the filesystem layer, in the order they were made. *)
Inductive fs_call : Type :=
  | FileExists (filename : string)
  | ReadFileInto (filename : string) (len : nat)
  | MakeOrReplaceFile (filename : string) (content : list byte)
  | SyncDir.

(** What the code acts on: the [struct uvMetadata] objects of its caller
    ([mem]), the files of the data directory [uv->dir] ([files]), the
    outcome the environment has in store for the next filesystem calls
    ([faults]: [true] makes a call fail; past the end of the script nothing
    fails), the filesystem calls made so far ([calls]) and the records
    emitted through the logger of [uv] ([tracer]).  The [struct ErrMsg]
    buffers ([uv->errmsg] and the local ones), which the failure paths write
    and nothing here reads, are left out: [mem] holds the metadata records
    only, and what is stated of [mem] is stated of these records. *)
Record state : Type := mkState {
  mem : gmap positive uvMetadata;
  files : gmap string (list byte);
  faults : list bool;
  calls : list fs_call;
  tracer : list log_record
}.

Definition set_mem (s : state) (m : gmap positive uvMetadata) : state :=
  mkState m (files s) (faults s) (calls s) (tracer s).

Definition set_files (s : state) (dir : gmap string (list byte)) : state :=
  mkState (mem s) dir (faults s) (calls s) (tracer s).

(** The state once call [c] has reached the filesystem layer. *)
Definition entered (s : state) (c : fs_call) : state :=
  mkState (mem s) (files s) (tl (faults s)) (calls s ++ [c]) (tracer s).

Definition logged (s : state) (r : log_record) : state :=
  mkState (mem s) (files s) (faults s) (calls s) (tracer s ++ [r]).

(** A computation runs on a state and either aborts ([None]: a failed
    [assert], an access through a dangling pointer) or returns a value and
    the next state. *)
Definition M (A : Type) : Type := state -> option (A * state).

Definition ret {A : Type} (a : A) : M A := fun s => Some (a, s).

Definition bind {A B : Type} (k : A -> M B) (c : M A) : M B :=
  fun s =>
    match c s with
    | Some (a, s') => k a s'
    | None => None
    end.

#[global] Instance M_ret : MRet M := @ret.
#[global] Instance M_bind : MBind M := @bind.

Definition assert (b : bool) : M unit :=
  fun s => if b then Some (tt, s) else None.

(** [*p] read as a value. *)
Definition deref (p : positive) : M uvMetadata :=
  fun s =>
    match mem s !! p with
    | Some m => Some (m, s)
    | None => None
    end.

(** [*p = m]. *)
Definition assign (p : positive) (m : uvMetadata) : M unit :=
  fun s =>
    match mem s !! p with
    | Some _ => Some (tt, set_mem s (<[p := m]> (mem s)))
    | None => None
    end.

(** Modelled from the spec: [uvDebugf], [uvWarnf] and [uvErrorf] are logging
    macros of uv.h, not part of the sources at hand.  Logging is a
    diagnostic side channel: a call adds one record to the log and nothing
    else. *)
Definition uvLog (l : level) (format : string) (args : list arg) : M unit :=
  fun s => Some (tt, logged s (mkLog l format args)).

Definition uvDebugf : string -> list arg -> M unit := uvLog DEBUG.
Definition uvWarnf : string -> list arg -> M unit := uvLog WARN.
Definition uvErrorf : string -> list arg -> M unit := uvLog ERROR.

(** ** The filesystem layer *)

(** Records the call and tells whether the environment makes it fail. *)
Definition fs_enter (c : fs_call) : M bool :=
  fun s => Some (hd false (faults s), entered s c).

Definition get_files : M (gmap string (list byte)) :=
  fun s => Some (files s, s).

Definition put_file (filename : string) (content : list byte) : M unit :=
  fun s => Some (tt, set_files s (<[filename := content]> (files s))).

(** Modelled from the spec: [UvFsFileExists] belongs to the filesystem layer,
    not part of the sources at hand.  Spec: a pure existence check that
    fails only on an I/O error.  Returns the code and the [exists]
    out-parameter. *)
Definition UvFsFileExists (filename : string) : M (status * bool) :=
  failed ← fs_enter (FileExists filename);
  if failed : bool then ret (UV__ERROR, false)
  else
    dir ← get_files;
    match dir !! filename with
    | Some _ => ret (OK, true)
    | None => ret (OK, false)
    end.

(** Modelled from the spec: [UvFsReadFileInto] belongs to the filesystem
    layer, not part of the sources at hand.  Spec: reads the requested
    number of bytes and reports a file shorter than that ([UV__NODATA])
    apart from any other failure.  Returns the code and the bytes put in
    the buffer. *)
Definition UvFsReadFileInto (filename : string) (len : nat)
  : M (status * list byte) :=
  failed ← fs_enter (ReadFileInto filename len);
  if failed : bool then ret (UV__ERROR, [])
  else
    dir ← get_files;
    match dir !! filename with
    | None => ret (UV__ERROR, [])
    | Some content =>
        if (length content <? len)%nat then ret (UV__NODATA, [])
        else ret (OK, take len content)
    end.

(** Modelled from the spec: [UvFsMakeOrReplaceFile] belongs to the filesystem
    layer, not part of the sources at hand.  Spec: atomically makes the
    given bytes the whole content of the file, or fails with an I/O error.
    What a failed call leaves of the file is not said there: the model
    leaves the directory as it was, and the properties stated below say
    nothing of the files after a write that failed. *)
Definition UvFsMakeOrReplaceFile (filename : string) (buf : list byte)
  : M status :=
  failed ← fs_enter (MakeOrReplaceFile filename buf);
  if failed : bool then ret UV__ERROR
  else
    put_file filename buf;;
    ret OK.

(** Modelled from the spec: [UvFsSyncDir] belongs to the filesystem layer,
    not part of the sources at hand.  Spec: makes the directory entries
    durable, or fails with an I/O error. *)
Definition UvFsSyncDir : M status :=
  failed ← fs_enter SyncDir;
  if failed : bool then ret UV__ERROR else ret OK.

(** ** Recovery and write path *)

Definition zero_metadata : uvMetadata := mkMetadata 0 0 0.

(** The content of a local [struct uvMetadata] before anything is stored in
    it.  C leaves it indeterminate; [loadFile] either overwrites the whole
    record before reading it or fails, upon which its caller drops the record
    unread (see [loadFile_indeterminate]). *)
Definition indeterminate : uvMetadata := zero_metadata.

(** Read the n'th metadata file (with n equal to 1 or 2) and decode the content
    of the file, populating the given metadata buffer accordingly. *)
Definition loadFile (n : Z) (metadata : uvMetadata)
  : M (status * uvMetadata) :=
  assert ((n =? 1) || (n =? 2));;
  (* Render the metadata path *)
  let filename := filenameOf n in
  '(rv, exists_) ← UvFsFileExists filename;
  if nonzero rv then ret (RAFT_IOERR, metadata)
  else
    let metadata := zero_metadata in
    (* If the file does not exist, just return. *)
    if negb exists_ then ret (OK, metadata)
    else
      (* Read the content of the metadata file. *)
      '(rv, content) ← UvFsReadFileInto filename METADATA_CONTENT_SIZE;
      if nonzero rv then
        if bool_decide (rv <> UV__NODATA) then ret (RAFT_IOERR, metadata)
        else
          (* Assume that the server crashed while writing this metadata file,
             and pretend it has not been written at all. *)
          uvWarnf "read %s: ignore incomplete data" [Str filename];;
          ret (OK, metadata)
      else
        (* Decode the content of the metadata file. *)
        let '(rv, metadata) := decode content metadata in
        if nonzero rv then
          assert (bool_decide (rv = RAFT_MALFORMED));;
          uvErrorf "load %s: bad format version" [Str filename];;
          ret (rv, metadata)
        else
          (* Sanity checks that values make sense *)
          if version metadata =? 0 then
            uvErrorf "load %s: version is set to zero" [Str filename];;
            ret (RAFT_CORRUPT, metadata)
          else ret (OK, metadata).

(** Write the record behind [metadata] to the slot file of its version.  The
    pointer is to a [const] record: the body reads it and nothing else. *)
Definition uvMetadataStore (metadata : positive) : M status :=
  m ← deref metadata;
  assert (version m >? 0);;
  (* Encode the given metadata. *)
  let content := encode m in
  (* Render the metadata file name. *)
  let n := u16 (indexOf (to_int (version m))) in
  let filename := filenameOf n in
  (* Write the metadata file, creating it if it does not exist. *)
  rv ← UvFsMakeOrReplaceFile filename content;
  if nonzero rv then
    uvErrorf "create %s: %s" [Str filename; ErrMsgString];;
    ret RAFT_IOERR
  else ret OK.

(** The loop of [ensure], with [todo] iterations left to run: [OK] when it ran
    to its end, else the code its body returned with. *)
Fixpoint ensure_loop (todo : nat) (metadata : positive) : M status :=
  match todo with
  | O => ret OK
  | S todo' =>
      m ← deref metadata;
      assign metadata (set_version m (u64 (version m + 1)));;
      rv ← uvMetadataStore metadata;
      if nonzero rv then ret rv
      else ensure_loop todo' metadata
  end.

(** Update both metadata files using the given one as seed, so they are created
    if they didn't exist. *)
Definition ensure (metadata : positive) : M status :=
  (* Update both metadata files, so they are created if they didn't
     exist. *)
  rv ← ensure_loop 2 metadata;
  if nonzero rv then ret rv
  else
    (* Also sync the data directory so the entries get created. *)
    rv ← UvFsSyncDir;
    if nonzero rv then
      uvErrorf "sync %s: %s" [UvDir; ErrMsgString];;
      ret RAFT_IOERR
    else ret OK.

(** The macro [logMetadata(PREFIX, M)]. *)
Definition logMetadata (prefix : string) (m : uvMetadata) : M unit :=
  uvDebugf
    ("metadata" ++ prefix ++ ": version %lld, term %lld, voted for %d")
    [Num (version m); Num (term m); Num (voted_for m)].

(** Read both slots, settle on one record, leave it behind [metadata] and
    rewrite both slot files from it.  [finish] is the end of the function,
    which the two branches that do not return early fall through to. *)
Definition uvMetadataLoad (metadata : positive) : M status :=
  (* Update the metadata files, so they are created if they did not exist. *)
  let finish : M status :=
    rv ← ensure metadata;
    if nonzero rv then ret rv else ret OK in
  (* Read the two metadata files (if available). *)
  '(rv, metadata1) ← loadFile 1 indeterminate;
  if nonzero rv then ret rv
  else
    logMetadata "1" metadata1;;
    '(rv, metadata2) ← loadFile 2 indeterminate;
    if nonzero rv then ret rv
    else
      logMetadata "2" metadata2;;
      (* Check the versions. *)
      if (version metadata1 =? 0) && (version metadata2 =? 0) then
        (* Neither metadata file exists: have a brand new server. *)
        m ← deref metadata;
        assign metadata (set_version m 0);;
        m ← deref metadata;
        assign metadata (set_term m 0);;
        m ← deref metadata;
        assign metadata (set_voted_for m 0);;
        finish
      else if version metadata1 =? version metadata2 then
        (* The two metadata files can't have the same version. *)
        ret RAFT_CORRUPT
      else
        (* Pick the metadata with the greater version. *)
        (if version metadata1 >? version metadata2
         then assign metadata metadata1
         else assign metadata metadata2);;
        finish.

(** ** Vocabulary of the statements *)

(** The first [n] filesystem calls to come do not fail. *)
Definition no_fault (n : nat) (script : list bool) : bool :=
  forallb negb (take n script).

Definition is_write (c : fs_call) : bool :=
  match c with
  | MakeOrReplaceFile _ _ => true
  | _ => false
  end.

(** The writes among the filesystem calls made so far. *)
Definition writes (s : state) : list fs_call := filter is_write (calls s).

(** The name of the file [uvMetadataStore] writes a record of version [v]
    to. *)
Definition slot_file (v : Z) : string :=
  filenameOf (u16 (indexOf (to_int v))).

(** The state after a store of [m] through [p] that did not fail. *)
Definition stored (s : state) (p : positive) (m : uvMetadata) : state :=
  mkState (<[p := m]> (mem s))
          (<[slot_file (version m) := encode m]> (files s))
          (tl (faults s))
          (calls s ++ [MakeOrReplaceFile (slot_file (version m)) (encode m)])
          (tracer s).

(** The log record [logMetadata] emits. *)
Definition metadata_record (prefix : string) (m : uvMetadata) : log_record :=
  mkLog DEBUG
    ("metadata" ++ prefix ++ ": version %lld, term %lld, voted for %d")
    [Num (version m); Num (term m); Num (voted_for m)].

(** The state in which [uvMetadataLoad] checks the versions when both slot
    files were there and were read in full as [metadata1] and [metadata2]. *)
Definition after_two_reads (s : state) (metadata1 metadata2 : uvMetadata)
  : state :=
  let s := entered s (FileExists "metadata1") in
  let s := entered s (ReadFileInto "metadata1" METADATA_CONTENT_SIZE) in
  let s := logged s (metadata_record "1" metadata1) in
  let s := entered s (FileExists "metadata2") in
  let s := entered s (ReadFileInto "metadata2" METADATA_CONTENT_SIZE) in
  logged s (metadata_record "2" metadata2).

(** The record [uvMetadataLoad] hands to [ensure], for the records
    [metadata1] and [metadata2] read from the slots with versions that differ
    or are both zero. *)
Definition authoritative (metadata1 metadata2 : uvMetadata) : uvMetadata :=
  if (version metadata1 =? 0) && (version metadata2 =? 0) then zero_metadata
  else if version metadata1 >? version metadata2 then metadata1
  else metadata2.

(** The first half of [uvMetadataLoad] ran from [s] to [s'] and read
    [metadata1] and [metadata2] from the two slots, both with code [0]. *)
Definition slots_read (s : state) (metadata1 metadata2 : uvMetadata)
  (s' : state) : Prop :=
  exists s1 s1' s2,
    loadFile 1 indeterminate s = Some ((OK, metadata1), s1) /\
    logMetadata "1" metadata1 s1 = Some (tt, s1') /\
    loadFile 2 indeterminate s1' = Some ((OK, metadata2), s2) /\
    logMetadata "2" metadata2 s2 = Some (tt, s').

(** The directory is in the state the alternating writes keep it in: record
    [a] sits in the slot file of its version and [b], of the next version, in
    the slot file of its own, all this below 2^31. *)
Definition alternating (dir : gmap string (list byte)) (a b : uvMetadata)
  : Prop :=
  valid a /\ valid b /\ 0 < version a /\ version b = version a + 1 /\
  version b < 2 ^ 31 /\
  dir !! slot_file (version a) = Some (encode a) /\
  dir !! slot_file (version b) = Some (encode b).

(** ** Scenarios *)

(** The address of the record the caller hands to [uvMetadataLoad]. *)
Definition caller : positive := 1%positive.

(** A state with record [m] behind [caller], the given files in the data
    directory, no filesystem failure ahead, and nothing done yet. *)
Definition start (m : uvMetadata) (dir : gmap string (list byte)) : state :=
  mkState {[caller := m]} dir [] [] [].

(** The state [uvMetadataLoad] is started in: what is behind [caller] is of
    no account. *)
Definition scenario (dir : gmap string (list byte)) : state :=
  start (mkMetadata 7 7 7) dir.

(** Fresh start: no slot file. *)
Definition fresh_dir : gmap string (list byte) := ∅.

(** Resume: versions 3 and 4. *)
Definition resume_dir : gmap string (list byte) :=
  <["metadata2" := encode (mkMetadata 4 2 5)]>
    (<["metadata1" := encode (mkMetadata 3 2 5)]> ∅).

(** Torn write: the second slot holds 3 bytes only. *)
Definition torn_dir : gmap string (list byte) :=
  <["metadata2" := [x01; x00; x00]]>
    (<["metadata1" := encode (mkMetadata 3 2 5)]> ∅).

(** Tie: both slots at version 3. *)
Definition tie_dir : gmap string (list byte) :=
  <["metadata2" := encode (mkMetadata 3 2 6)]>
    (<["metadata1" := encode (mkMetadata 3 2 5)]> ∅).

(** A well-tagged first slot whose version field is zero. *)
Definition zero_version_dir : gmap string (list byte) :=
  <["metadata1" := encode (mkMetadata 0 2 5)]> ∅.

(** The first slot at version 2^31 - 1, the greatest [int]. *)
Definition int_max_dir : gmap string (list byte) :=
  <["metadata1" := encode (mkMetadata 2147483647 1 1)]> ∅.

(** A 32-byte buffer whose tag field is 2^32 + 1. *)
Definition high_tag_buffer : list byte :=
  le_bytes 8 (2 ^ 32 + 1) ++ le_bytes 8 7 ++ le_bytes 8 8 ++ le_bytes 8 9.

(** A 32-byte buffer whose tag field is 2. *)
Definition bad_tag_buffer : list byte :=
  le_bytes 8 2 ++ le_bytes 8 7 ++ le_bytes 8 8 ++ le_bytes 8 9.

(** A first slot file of 32 bytes with the tag 2. *)
Definition bad_tag_dir : gmap string (list byte) :=
  <["metadata1" := bad_tag_buffer]> ∅.

(** State [s] with the given outcomes in store for the filesystem calls to
    come. *)
Definition with_faults (s : state) (script : list bool) : state :=
  mkState (mem s) (files s) script (calls s) (tracer s).

(** The state a run ended in ([s] itself if it aborted). *)
Definition state_after {A : Type} (run : M A) (s : state) : state :=
  match run s with
  | Some (_, s') => s'
  | None => s
  end.

(** ** Codec lemmas *)

Lemma Z_of_byte_range (b : byte) : 0 <= Z_of_byte b < 256.
Proof.
  unfold Z_of_byte. pose proof (Byte.to_N_bounded b) as Hb. lia.
Qed.

Lemma Z_of_byte_of_Z (z : Z) : Z_of_byte (byte_of_Z z) = z mod 256.
Proof.
  unfold Z_of_byte, byte_of_Z.
  assert (Hr : 0 <= z mod 256 < 256) by (apply Z.mod_pos_bound; lia).
  destruct (Byte.of_N (Z.to_N (z mod 256))) as [b|] eqn:Hb.
  - apply Byte.to_of_N in Hb. rewrite Hb. lia.
  - pose proof (Byte.to_of_N_option_map (Z.to_N (z mod 256))) as Hm.
    rewrite Hb in Hm. simpl in Hm.
    destruct (N.leb_spec (Z.to_N (z mod 256)) 255); [discriminate | lia].
Qed.

Lemma length_le_bytes (n : nat) (z : Z) : length (le_bytes n z) = n.
Proof. revert z. induction n as [|n IH]; intros z; simpl; [done | by rewrite IH]. Qed.

Lemma le_value_le_bytes (n : nat) (z : Z) :
  le_value (le_bytes n z) = z mod 256 ^ Z.of_nat n.
Proof.
  revert z. induction n as [|n IH]; intros z.
  - simpl. by rewrite Z.mod_1_r.
  - cbn [le_bytes le_value]. rewrite Z_of_byte_of_Z, IH.
    rewrite Nat2Z.inj_succ, Z.pow_succ_r by lia.
    rewrite Z.rem_mul_r by lia. reflexivity.
Qed.

Lemma le_value_range (bs : list byte) :
  0 <= le_value bs < 256 ^ Z.of_nat (length bs).
Proof.
  induction bs as [|b bs IH].
  - simpl. lia.
  - cbn [le_value length]. rewrite Nat2Z.inj_succ, Z.pow_succ_r by lia.
    pose proof (Z_of_byte_range b). lia.
Qed.

Lemma byteGet64_bytePut64 (z : Z) (rest : list byte) :
  byteGet64 (le_bytes 8 z ++ rest) = (u64 z, rest).
Proof.
  unfold byteGet64.
  rewrite take_app_length', drop_app_length' by (symmetry; apply length_le_bytes).
  rewrite le_value_le_bytes. reflexivity.
Qed.

Lemma u64_id (z : Z) : is_u64 z -> u64 z = z.
Proof. unfold is_u64, u64. intros H. apply Z.mod_small. lia. Qed.

Lemma encode_unfold (m : uvMetadata) :
  encode m =
  le_bytes 8 UV__DISK_FORMAT ++ le_bytes 8 (version m) ++
  le_bytes 8 (term m) ++ le_bytes 8 (voted_for m) ++ [].
Proof.
  unfold encode, bytePut64. rewrite app_nil_l, app_nil_r, <- !app_assoc.
  reflexivity.
Qed.

Lemma length_encode (m : uvMetadata) : length (encode m) = METADATA_CONTENT_SIZE.
Proof.
  rewrite encode_unfold, !length_app, !length_le_bytes. reflexivity.
Qed.

(** Decoding an encoded record gives the record back, whatever was behind the
    out-pointer before. *)
Lemma decode_encode (m m0 : uvMetadata) :
  valid m -> decode (encode m) m0 = (OK, m).
Proof.
  intros (Hv & Ht & Hf). rewrite encode_unfold. unfold decode.
  rewrite byteGet64_bytePut64.
  replace (u32 (u64 UV__DISK_FORMAT) =? UV__DISK_FORMAT) with true
    by reflexivity.
  cbn [negb]. rewrite !byteGet64_bytePut64.
  rewrite !u64_id by assumption. destruct m; reflexivity.
Qed.

(** What decode accepts: exactly the buffers whose tag has the 32 low bits of
    the expected constant. *)
Lemma decode_status (buf : list byte) (m0 : uvMetadata) :
  (decode buf m0).1 =
  if u32 (le_value (take 8 buf)) =? UV__DISK_FORMAT then OK else RAFT_MALFORMED.
Proof.
  unfold decode, byteGet64. cbn beta iota.
  destruct (u32 (le_value (take 8 buf)) =? UV__DISK_FORMAT); reflexivity.
Qed.

(** ** Slot naming *)

Lemma to_int_range (z : Z) : - 2 ^ 31 <= to_int z < 2 ^ 31.
Proof.
  unfold to_int, to_signed. change (32 - 1) with 31.
  pose proof (Z.mod_pos_bound (z + 2 ^ 31) (2 ^ 32)). lia.
Qed.

Lemma to_int_small (z : Z) : 0 <= z < 2 ^ 31 -> to_int z = z.
Proof.
  intros H. unfold to_int, to_signed. change (32 - 1) with 31.
  rewrite Z.mod_small; lia.
Qed.

(** On an [int] that is not negative the index follows the parity. *)
Lemma indexOf_nonneg (x : Z) :
  0 <= x -> indexOf x = if Z.odd x then 1 else 2.
Proof.
  intros Hx. unfold indexOf, c_mod. rewrite Z.rem_mod_nonneg by lia.
  rewrite Zmod_odd. destruct (Z.odd x); reflexivity.
Qed.

(** On a negative [int] the index is 2, whatever the parity. *)
Lemma indexOf_neg (x : Z) : x < 0 -> indexOf x = 2.
Proof.
  intros Hx. unfold indexOf, c_mod.
  pose proof (Z.rem_nonpos x 2) as Hr.
  destruct (Z.eqb_spec (Z.rem x 2) 1) as [E|E]; [lia | reflexivity].
Qed.

(** Versions below 2^31 go to slot 1 when odd and to slot 2 when even. *)
Lemma slot_file_small (v : Z) :
  0 <= v < 2 ^ 31 ->
  slot_file v = if Z.odd v then "metadata1" else "metadata2".
Proof.
  intros Hv. unfold slot_file. rewrite to_int_small, indexOf_nonneg by lia.
  destruct (Z.odd v); reflexivity.
Qed.

(** What the conversion to [int] does to a version. *)
Lemma to_int_cases (v : Z) :
  to_int v =
    if v mod 2 ^ 32 <? 2 ^ 31 then v mod 2 ^ 32 else v mod 2 ^ 32 - 2 ^ 32.
Proof.
  unfold to_int, to_signed. change (32 - 1) with 31.
  pose proof (Z.div_mod v (2 ^ 32)) as Hv.
  pose proof (Z.mod_pos_bound v (2 ^ 32)) as Hx.
  pose proof (Z.div_mod (v + 2 ^ 31) (2 ^ 32)) as Hw.
  pose proof (Z.mod_pos_bound (v + 2 ^ 31) (2 ^ 32)) as Hy.
  change (2 ^ 32) with 4294967296 in *. change (2 ^ 31) with 2147483648 in *.
  destruct (Z.ltb_spec (v mod 4294967296) 2147483648); lia.
Qed.

Lemma odd_mod_2_32 (v : Z) : Z.odd (v mod 2 ^ 32) = Z.odd v.
Proof.
  rewrite (Z.div_mod v (2 ^ 32)) at 2 by lia.
  change (2 ^ 32) with (2 * 2 ^ 31). rewrite <- Z.mul_assoc, Z.add_comm.
  by rewrite Z.odd_add_mul_2.
Qed.

(** The slot of every version: the first file takes the odd versions whose
    bit 31 is clear, the second file all the others. *)
Lemma slot_file_spec (v : Z) :
  slot_file v =
    if Z.odd v && (v mod 2 ^ 32 <? 2 ^ 31) then "metadata1" else "metadata2".
Proof.
  unfold slot_file. rewrite to_int_cases.
  pose proof (Z.mod_pos_bound v (2 ^ 32)) as Hx.
  destruct (Z.ltb_spec (v mod 2 ^ 32) (2 ^ 31)) as [Hlt | Hge].
  - rewrite indexOf_nonneg by lia. rewrite odd_mod_2_32.
    destruct (Z.odd v); reflexivity.
  - rewrite indexOf_neg by lia. rewrite andb_false_r. reflexivity.
Qed.

(** The width of [int] is not what matters: whatever it is, the first odd
    version past the greatest [int] is sent to slot 2. *)
Lemma indexOf_past_signed_max (w : Z) :
  1 < w ->
  Z.odd (2 ^ (w - 1) + 1) = true /\
  indexOf (to_signed w (2 ^ (w - 1) + 1)) = 2.
Proof.
  intros Hw.
  assert (Hp : 0 < 2 ^ (w - 1)) by (apply Z.pow_pos_nonneg; lia).
  assert (Hd : 2 ^ w = 2 * 2 ^ (w - 1)).
  { rewrite <- Z.pow_succ_r by lia. f_equal. lia. }
  assert (He : 2 ^ (w - 1) = 2 * 2 ^ (w - 2)).
  { rewrite <- Z.pow_succ_r by lia. f_equal. lia. }
  split.
  - rewrite He, Z.add_comm. by rewrite Z.odd_add_mul_2.
  - apply indexOf_neg. unfold to_signed.
    replace (2 ^ (w - 1) + 1 + 2 ^ (w - 1)) with (1 + 1 * 2 ^ w) by lia.
    rewrite Z.mod_add by lia. rewrite Z.mod_small by lia. lia.
Qed.

(** Below 2^31 two versions in a row never share a slot. *)
Lemma slot_file_alternates (v : Z) :
  0 <= v -> v + 1 < 2 ^ 31 -> slot_file v <> slot_file (v + 1).
Proof.
  intros H0 H1. rewrite !slot_file_small by lia.
  change (v + 1) with (Z.succ v). rewrite Z.odd_succ, <- Z.negb_odd.
  destruct (Z.odd v); discriminate.
Qed.

(** ** Running the code *)

Lemma bind_run {A B : Type} (c : M A) (k : A -> M B) (s s' : state) (a : A) :
  c s = Some (a, s') -> (c ≫= k) s = k a s'.
Proof. intros H. unfold mbind, M_bind, bind. by rewrite H. Qed.

Lemma uvMetadataStore_run (p : positive) (s : state) (m : uvMetadata) :
  mem s !! p = Some m ->
  0 < version m ->
  uvMetadataStore p s =
    let filename := slot_file (version m) in
    let s1 := entered s (MakeOrReplaceFile filename (encode m)) in
    if hd false (faults s)
    then Some (RAFT_IOERR,
               logged s1 (mkLog ERROR "create %s: %s"
                                [Str filename; ErrMsgString]))
    else Some (OK, set_files s1 (<[filename := encode m]> (files s))).
Proof.
  intros Hp Hv. unfold uvMetadataStore.
  rewrite (bind_run _ _ s s m) by (unfold deref; by rewrite Hp).
  assert (Hpos : (version m >? 0) = true) by lia.
  rewrite Hpos.
  unfold UvFsMakeOrReplaceFile, mbind, M_bind, bind, assert, fs_enter.
  cbn beta iota zeta.
  destruct (hd false (faults s)); reflexivity.
Qed.

(** The writes of a state built from another one. *)
Lemma writes_entered (s : state) (c : fs_call) :
  writes (entered s c) = writes s ++ (if is_write c then [c] else []).
Proof.
  unfold writes. cbn [calls entered]. rewrite filter_app.
  destruct c; reflexivity.
Qed.

Lemma writes_logged (s : state) (r : log_record) :
  writes (logged s r) = writes s.
Proof. reflexivity. Qed.

Lemma writes_set_mem (s : state) (m : gmap positive uvMetadata) :
  writes (set_mem s m) = writes s.
Proof. reflexivity. Qed.

Lemma writes_set_files (s : state) (dir : gmap string (list byte)) :
  writes (set_files s dir) = writes s.
Proof. reflexivity. Qed.

Lemma writes_stored (s : state) (p : positive) (m : uvMetadata) :
  writes (stored s p m) =
  writes s ++ [MakeOrReplaceFile (slot_file (version m)) (encode m)].
Proof. unfold writes. cbn [calls stored]. by rewrite filter_app. Qed.

Create Rewrite HintDb writes.
#[global] Hint Rewrite writes_entered writes_logged writes_set_mem
  writes_set_files writes_stored : writes.

Lemma assert_true (s : state) : assert true s = Some (tt, s).
Proof. reflexivity. Qed.

Lemma deref_run (p : positive) (s : state) (m : uvMetadata) :
  mem s !! p = Some m -> deref p s = Some (m, s).
Proof. intros H. unfold deref. by rewrite H. Qed.

Lemma assign_run (p : positive) (s : state) (m m0 : uvMetadata) :
  mem s !! p = Some m0 ->
  assign p m s = Some (tt, set_mem s (<[p := m]> (mem s))).
Proof. intros H. unfold assign. by rewrite H. Qed.

Lemma no_fault_S (n : nat) (script : list bool) :
  no_fault (S n) script = true ->
  hd false script = false /\ no_fault n (tl script) = true.
Proof.
  unfold no_fault. destruct script as [|f script]; cbn.
  - by rewrite take_nil.
  - intros [Hf Hn]%andb_true_iff. by destruct f.
Qed.

Lemma no_fault_cons (n : nat) (script : list bool) :
  hd false script = false ->
  no_fault n (tl script) = true ->
  no_fault (S n) script = true.
Proof.
  unfold no_fault. destruct script as [|f script]; cbn.
  - by rewrite take_nil.
  - intros -> Hn. exact Hn.
Qed.

(** *** Filesystem calls that do not fail *)

Lemma UvFsFileExists_absent (filename : string) (s : state) :
  hd false (faults s) = false ->
  files s !! filename = None ->
  UvFsFileExists filename s = Some ((OK, false), entered s (FileExists filename)).
Proof.
  intros Hf Hd. unfold UvFsFileExists, mbind, M_bind, bind, fs_enter, get_files.
  rewrite Hf. cbn. by rewrite Hd.
Qed.

Lemma UvFsFileExists_present (filename : string) (content : list byte)
  (s : state) :
  hd false (faults s) = false ->
  files s !! filename = Some content ->
  UvFsFileExists filename s = Some ((OK, true), entered s (FileExists filename)).
Proof.
  intros Hf Hd. unfold UvFsFileExists, mbind, M_bind, bind, fs_enter, get_files.
  rewrite Hf. cbn. by rewrite Hd.
Qed.

Lemma UvFsReadFileInto_short (filename : string) (content : list byte)
  (len : nat) (s : state) :
  hd false (faults s) = false ->
  files s !! filename = Some content ->
  (length content < len)%nat ->
  UvFsReadFileInto filename len s =
    Some ((UV__NODATA, []), entered s (ReadFileInto filename len)).
Proof.
  intros Hf Hd Hl.
  unfold UvFsReadFileInto, mbind, M_bind, bind, fs_enter, get_files.
  rewrite Hf. cbn -[Nat.ltb]. rewrite Hd.
  destruct (Nat.ltb_spec (length content) len); [reflexivity | lia].
Qed.

Lemma UvFsReadFileInto_full (filename : string) (content : list byte)
  (len : nat) (s : state) :
  hd false (faults s) = false ->
  files s !! filename = Some content ->
  (len <= length content)%nat ->
  UvFsReadFileInto filename len s =
    Some ((OK, take len content), entered s (ReadFileInto filename len)).
Proof.
  intros Hf Hd Hl.
  unfold UvFsReadFileInto, mbind, M_bind, bind, fs_enter, get_files.
  rewrite Hf. cbn -[Nat.ltb]. rewrite Hd.
  destruct (Nat.ltb_spec (length content) len); [lia | reflexivity].
Qed.

(** *** The per-slot read *)

Lemma slot_index_check (n : Z) : n = 1 \/ n = 2 -> (n =? 1) || (n =? 2) = true.
Proof. intros [-> | ->]; reflexivity. Qed.

Lemma loadFile_absent (n : Z) (m0 : uvMetadata) (s : state) :
  n = 1 \/ n = 2 ->
  hd false (faults s) = false ->
  files s !! filenameOf n = None ->
  loadFile n m0 s =
    Some ((OK, zero_metadata), entered s (FileExists (filenameOf n))).
Proof.
  intros Hn Hf Hd. unfold loadFile. rewrite slot_index_check by assumption.
  rewrite (bind_run _ _ _ _ _ (assert_true s)).
  rewrite (bind_run _ _ _ _ _ (UvFsFileExists_absent _ _ Hf Hd)).
  reflexivity.
Qed.

Lemma loadFile_present (n : Z) (m0 r : uvMetadata) (s : state)
  (content : list byte) :
  n = 1 \/ n = 2 ->
  no_fault 2 (faults s) = true ->
  files s !! filenameOf n = Some content ->
  (METADATA_CONTENT_SIZE <= length content)%nat ->
  decode (take METADATA_CONTENT_SIZE content) zero_metadata = (OK, r) ->
  version r <> 0 ->
  loadFile n m0 s =
    Some ((OK, r),
          entered (entered s (FileExists (filenameOf n)))
                  (ReadFileInto (filenameOf n) METADATA_CONTENT_SIZE)).
Proof.
  intros Hn Hq Hd Hl Hdec Hv.
  apply no_fault_S in Hq as [Hf1 Hq]. apply no_fault_S in Hq as [Hf2 _].
  unfold loadFile. rewrite slot_index_check by assumption.
  rewrite (bind_run _ _ _ _ _ (assert_true s)).
  rewrite (bind_run _ _ _ _ _ (UvFsFileExists_present _ _ _ Hf1 Hd)).
  cbn [nonzero negb].
  rewrite (bind_run _ _ _ _ _
             (UvFsReadFileInto_full _ content _ (entered s _) Hf2 Hd Hl)).
  cbn [nonzero]. rewrite Hdec. cbn [nonzero].
  assert (E : (version r =? 0) = false) by lia. rewrite E. reflexivity.
Qed.

Lemma loadFile_short (n : Z) (m0 : uvMetadata) (s : state)
  (content : list byte) :
  n = 1 \/ n = 2 ->
  no_fault 2 (faults s) = true ->
  files s !! filenameOf n = Some content ->
  (length content < METADATA_CONTENT_SIZE)%nat ->
  loadFile n m0 s =
    Some ((OK, zero_metadata),
          logged (entered (entered s (FileExists (filenameOf n)))
                          (ReadFileInto (filenameOf n) METADATA_CONTENT_SIZE))
                 (mkLog WARN "read %s: ignore incomplete data"
                        [Str (filenameOf n)])).
Proof.
  intros Hn Hq Hd Hl.
  apply no_fault_S in Hq as [Hf1 Hq]. apply no_fault_S in Hq as [Hf2 _].
  unfold loadFile. rewrite slot_index_check by assumption.
  rewrite (bind_run _ _ _ _ _ (assert_true s)).
  rewrite (bind_run _ _ _ _ _ (UvFsFileExists_present _ _ _ Hf1 Hd)).
  cbn [nonzero negb].
  rewrite (bind_run _ _ _ _ _
             (UvFsReadFileInto_short _ content _ (entered s _) Hf2 Hd Hl)).
  reflexivity.
Qed.

(** The per-slot read touches neither the caller's records nor the files,
    and writes nothing. *)
Lemma loadFile_frame (n : Z) (m0 : uvMetadata) (s s' : state)
  (r : status * uvMetadata) :
  loadFile n m0 s = Some (r, s') ->
  mem s' = mem s /\ files s' = files s /\ writes s' = writes s.
Proof.
  unfold loadFile, UvFsFileExists, UvFsReadFileInto, uvWarnf, uvErrorf, uvLog,
    mbind, M_bind, bind, mret, M_ret, ret, assert, fs_enter, get_files, writes.
  intros H.
  repeat (case_match; simplify_eq; cbn in * );
    rewrite ?filter_app; cbn; rewrite ?app_nil_r; done.
Qed.

Lemma byteGet64_range (cursor : list byte) : is_u64 (byteGet64 cursor).1.
Proof.
  unfold byteGet64, is_u64. cbn [fst].
  pose proof (le_value_range (take 8 cursor)) as Hr.
  assert (Hl : (length (take 8 cursor) <= 8)%nat) by (rewrite length_take; lia).
  assert (256 ^ Z.of_nat (length (take 8 cursor)) <= 256 ^ 8)
    by (apply Z.pow_le_mono_r; lia).
  change (2 ^ 64) with (256 ^ 8). lia.
Qed.

(** Whatever decode accepts is a record of 64-bit fields. *)
Lemma decode_valid (buf : list byte) (m0 r : uvMetadata) :
  decode buf m0 = (OK, r) -> valid r.
Proof.
  unfold decode.
  destruct (byteGet64 buf) as [tag c1] eqn:E0.
  destruct (negb (u32 tag =? UV__DISK_FORMAT)); [discriminate |].
  destruct (byteGet64 c1) as [v1 c2] eqn:E1.
  destruct (byteGet64 c2) as [v2 c3] eqn:E2.
  destruct (byteGet64 c3) as [v3 c4] eqn:E3.
  intros [= <-]. unfold valid; cbn.
  pose proof (byteGet64_range c1) as H1. rewrite E1 in H1.
  pose proof (byteGet64_range c2) as H2. rewrite E2 in H2.
  pose proof (byteGet64_range c3) as H3. rewrite E3 in H3.
  auto.
Qed.

Lemma valid_zero_metadata : valid zero_metadata.
Proof. unfold valid, is_u64; cbn. lia. Qed.

(** A record read from a slot with code [0] is a record of 64-bit fields. *)
Lemma loadFile_valid (n : Z) (m0 r : uvMetadata) (s s' : state) :
  loadFile n m0 s = Some ((OK, r), s') -> valid r.
Proof.
  unfold loadFile, UvFsFileExists, UvFsReadFileInto, uvWarnf, uvErrorf, uvLog,
    mbind, M_bind, bind, mret, M_ret, ret, assert, fs_enter, get_files.
  intros H.
  repeat (case_match; simplify_eq; cbn -[decode] in * );
    eauto using valid_zero_metadata.
  match goal with
  | Hn : nonzero ?rv = false |- _ => destruct rv; try discriminate Hn
  end.
  eauto using decode_valid.
Qed.

(** The record behind the out-pointer before the call does not show in a
    result with code [0], nor in the code or the resulting state. *)
Lemma loadFile_indeterminate (n : Z) (m0 m0' : uvMetadata) (s : state) :
  match loadFile n m0 s, loadFile n m0' s with
  | Some ((rv, r), s1), Some ((rv', r'), s1') =>
      rv = rv' /\ s1 = s1' /\ (rv = OK -> r = r')
  | None, None => True
  | _, _ => False
  end.
Proof.
  unfold loadFile, UvFsFileExists, UvFsReadFileInto, uvWarnf, uvErrorf, uvLog,
    mbind, M_bind, bind, mret, M_ret, ret, assert, fs_enter, get_files.
  repeat (case_match; simplify_eq; cbn -[decode] in * ); done.
Qed.

(** *** Normalization *)

Lemma u64_succ (v : Z) : 0 <= v -> v + 1 < 2 ^ 64 -> u64 (v + 1) = v + 1.
Proof. intros. apply u64_id. unfold is_u64. lia. Qed.

(** One turn of the loop of [ensure] when the write does not fail. *)
Lemma ensure_loop_step (todo : nat) (p : positive) (s : state)
  (m : uvMetadata) :
  mem s !! p = Some m ->
  0 <= version m -> version m + 1 < 2 ^ 64 ->
  hd false (faults s) = false ->
  ensure_loop (S todo) p s =
    ensure_loop todo p (stored s p (set_version m (version m + 1))).
Proof.
  intros Hp H0 H1 Hf. cbn [ensure_loop].
  rewrite (bind_run _ _ s s m) by (unfold deref; by rewrite Hp).
  rewrite u64_succ by assumption.
  set (m1 := set_version m (version m + 1)).
  rewrite (bind_run _ _ s (set_mem s (<[p := m1]> (mem s))) tt)
    by (unfold assign; by rewrite Hp).
  erewrite bind_run; cycle 1.
  { rewrite (uvMetadataStore_run p _ m1).
    - cbn [faults set_mem]. rewrite Hf. cbn zeta. reflexivity.
    - cbn. apply lookup_insert_eq.
    - cbn. lia. }
  cbn [nonzero]. reflexivity.
Qed.

Lemma ensure_run (p : positive) (s : state) (m : uvMetadata) :
  mem s !! p = Some m ->
  0 <= version m -> version m + 2 < 2 ^ 64 ->
  no_fault 3 (faults s) = true ->
  ensure p s =
    let m1 := set_version m (version m + 1) in
    let m2 := set_version m (version m + 2) in
    Some (OK, entered (stored (stored s p m1) p m2) SyncDir).
Proof.
  intros Hp H0 H2 Hq.
  apply no_fault_S in Hq as [Hf1 Hq].
  apply no_fault_S in Hq as [Hf2 Hq].
  apply no_fault_S in Hq as [Hf3 _].
  unfold ensure.
  erewrite bind_run; cycle 1.
  { rewrite (ensure_loop_step 1 p s m) by (assumption || lia).
    rewrite (ensure_loop_step 0 p _ (set_version m (version m + 1))).
    - cbn [ensure_loop]. reflexivity.
    - cbn. apply lookup_insert_eq.
    - cbn. lia.
    - cbn. lia.
    - exact Hf2. }
  cbn [nonzero].
  unfold UvFsSyncDir, mbind, M_bind, bind, fs_enter.
  cbn [faults stored set_version version tl]. rewrite Hf3. cbn.
  replace (version m + 1 + 1) with (version m + 2) by lia. reflexivity.
Qed.

Lemma bind_inv {A B : Type} (c : M A) (k : A -> M B) (s : state)
  (r : B * state) :
  (c ≫= k) s = Some r -> exists a s1, c s = Some (a, s1) /\ k a s1 = Some r.
Proof.
  unfold mbind, M_bind, bind.
  destruct (c s) as [[a s1]|]; [eauto | discriminate].
Qed.

(** A store of a record whose version is zero trips the assertion. *)
Lemma uvMetadataStore_abort (p : positive) (s : state) (m : uvMetadata) :
  mem s !! p = Some m -> version m <= 0 -> uvMetadataStore p s = None.
Proof.
  intros Hp Hv. unfold uvMetadataStore.
  rewrite (bind_run _ _ s s m) by (by apply deref_run).
  assert (E : (version m >? 0) = false) by lia. rewrite E. reflexivity.
Qed.

(** A turn of the loop of [ensure] that lets the loop end with [0] did not
    wrap the version around and did not fail. *)
Lemma ensure_loop_inv (todo : nat) (p : positive) (s s' : state)
  (m : uvMetadata) :
  mem s !! p = Some m ->
  valid m ->
  ensure_loop (S todo) p s = Some (OK, s') ->
  version m + 1 < 2 ^ 64 /\ hd false (faults s) = false /\
  ensure_loop todo p (stored s p (set_version m (version m + 1)))
    = Some (OK, s').
Proof.
  intros Hp ([H0 Hmax] & _) Hrun.
  destruct (Z.eq_dec (version m + 1) (2 ^ 64)) as [Hwrap | Hnowrap].
  - exfalso. cbn [ensure_loop] in Hrun.
    rewrite (bind_run _ _ _ _ _ (deref_run _ _ _ Hp)) in Hrun.
    rewrite (bind_run _ _ _ _ _ (assign_run _ _ _ _ Hp)) in Hrun.
    apply bind_inv in Hrun as (rv & s1 & Hst & _).
    rewrite (uvMetadataStore_abort p _ (set_version m (u64 (version m + 1))))
      in Hst; [discriminate | apply lookup_insert_eq |].
    cbn [version set_version]. unfold u64. rewrite Hwrap.
    rewrite Z.mod_same by (apply Z.pow_nonzero; lia). lia.
  - assert (Hlt : version m + 1 < 2 ^ 64) by lia.
    destruct (hd false (faults s)) eqn:Hf.
    + exfalso. cbn [ensure_loop] in Hrun.
      rewrite (bind_run _ _ _ _ _ (deref_run _ _ _ Hp)) in Hrun.
      rewrite (bind_run _ _ _ _ _ (assign_run _ _ _ _ Hp)) in Hrun.
      rewrite u64_succ in Hrun by assumption.
      erewrite bind_run in Hrun; cycle 1.
      { rewrite (uvMetadataStore_run p _ (set_version m (version m + 1))).
        - cbn [faults set_mem]. rewrite Hf. cbn zeta. reflexivity.
        - apply lookup_insert_eq.
        - cbn. lia. }
      discriminate Hrun.
    + rewrite (ensure_loop_step todo p s m) in Hrun by assumption.
      auto.
Qed.

(** [ensure] returns [0] only if neither increment wrapped around and none of
    its three filesystem calls failed: [ensure_run] then tells the state it
    ends in. *)
Lemma ensure_OK_inv (p : positive) (s s' : state) (m : uvMetadata) :
  mem s !! p = Some m ->
  valid m ->
  ensure p s = Some (OK, s') ->
  version m + 2 < 2 ^ 64 /\ no_fault 3 (faults s) = true.
Proof.
  intros Hp Hv Hrun. unfold ensure in Hrun.
  apply bind_inv in Hrun as (rv & s1 & Hloop & Hrest).
  destruct rv; try discriminate Hrest. cbn [nonzero] in Hrest.
  apply (ensure_loop_inv 1 p s s1 m Hp Hv) in Hloop as (Hlt1 & Hf1 & Hloop).
  set (m1 := set_version m (version m + 1)) in *.
  assert (Hv1 : valid m1).
  { unfold valid, is_u64 in *. cbn [version term voted_for m1 set_version].
    lia. }
  apply (ensure_loop_inv 0 p _ s1 m1) in Hloop as (Hlt2 & Hf2 & Hloop);
    [| apply lookup_insert_eq | exact Hv1].
  cbn [ensure_loop] in Hloop. injection Hloop as <-.
  split; [cbn in Hlt2; lia |].
  unfold UvFsSyncDir, mbind, M_bind, bind, fs_enter in Hrest.
  cbn [faults stored] in *.
  destruct (hd false (tl (tl (faults s)))) eqn:Hf3; [discriminate Hrest |].
  by repeat apply no_fault_cons.
Qed.

(** *** Recovery *)

Lemma logMetadata_run (prefix : string) (m : uvMetadata) (s s' : state) :
  logMetadata prefix m s = Some (tt, s') ->
  mem s' = mem s /\ files s' = files s /\ writes s' = writes s /\
  faults s' = faults s.
Proof. intros [= <-]. done. Qed.

(** Reading the two slots leaves the caller's records and the files alone,
    writes nothing, and yields records of 64-bit fields. *)
Lemma slots_read_frame (s s' : state) (r1 r2 : uvMetadata) :
  slots_read s r1 r2 s' ->
  mem s' = mem s /\ files s' = files s /\ writes s' = writes s /\
  valid r1 /\ valid r2.
Proof.
  intros (s1 & s1' & s2 & L1 & G1 & L2 & G2).
  pose proof (loadFile_valid _ _ _ _ _ L1).
  pose proof (loadFile_valid _ _ _ _ _ L2).
  apply loadFile_frame in L1 as (? & ? & ?).
  apply loadFile_frame in L2 as (? & ? & ?).
  apply logMetadata_run in G1 as (? & ? & ? & ?).
  apply logMetadata_run in G2 as (? & ? & ? & ?).
  split; [congruence |]. split; [congruence |]. split; [congruence |].
  split; assumption.
Qed.

(** Two slot files that are there in full, decode and carry a version are
    read as the records they decode to. *)
Lemma slots_read_present (s : state) (c1 c2 : list byte)
  (r1 r2 : uvMetadata) :
  no_fault 4 (faults s) = true ->
  files s !! "metadata1" = Some c1 ->
  files s !! "metadata2" = Some c2 ->
  (METADATA_CONTENT_SIZE <= length c1)%nat ->
  (METADATA_CONTENT_SIZE <= length c2)%nat ->
  decode (take METADATA_CONTENT_SIZE c1) zero_metadata = (OK, r1) ->
  decode (take METADATA_CONTENT_SIZE c2) zero_metadata = (OK, r2) ->
  version r1 <> 0 ->
  version r2 <> 0 ->
  slots_read s r1 r2 (after_two_reads s r1 r2).
Proof.
  intros Hq F1 F2 L1 L2 D1 D2 V1 V2.
  apply no_fault_S in Hq as [Hf1 Hq]. apply no_fault_S in Hq as [Hf2 Hq].
  eexists _, _, _. split; [| split; [reflexivity | split; [| reflexivity]]].
  - apply (loadFile_present 1 _ r1 s c1); try assumption; [by left |].
    by repeat apply no_fault_cons.
  - apply (loadFile_present 2 _ r2 _ c2); try assumption; [by right].
Qed.

(** Runs [uvMetadataLoad] up to its check of the versions. *)
Ltac after_reads H :=
  let s1 := fresh "s1" in
  let s1' := fresh "s1'" in
  let s2 := fresh "s2" in
  let L1 := fresh "L1" in
  let G1 := fresh "G1" in
  let L2 := fresh "L2" in
  let G2 := fresh "G2" in
  destruct H as (s1 & s1' & s2 & L1 & G1 & L2 & G2);
  unfold uvMetadataLoad;
  rewrite (bind_run _ _ _ _ _ L1); cbn [nonzero];
  rewrite (bind_run _ _ _ _ _ G1);
  rewrite (bind_run _ _ _ _ _ L2); cbn [nonzero];
  rewrite (bind_run _ _ _ _ _ G2).

(** What [uvMetadataLoad] does once the versions differ: the record of
    the greater version goes to the caller and [ensure] takes over. *)
Lemma uvMetadataLoad_unequal (p : positive) (s s2 : state)
  (r1 r2 : uvMetadata) :
  slots_read s r1 r2 s2 ->
  version r1 <> version r2 ->
  uvMetadataLoad p s =
    (assign p (if version r1 >? version r2 then r1 else r2) ;;
     rv ← ensure p; if nonzero rv then ret rv else ret OK) s2.
Proof.
  intros H Hne. after_reads H.
  assert (E : (version r1 =? version r2) = false) by lia. rewrite E.
  assert (E0 : (version r1 =? 0) && (version r2 =? 0) = false) by lia.
  rewrite E0.
  destruct (version r1 >? version r2); reflexivity.
Qed.

(** What [uvMetadataLoad] does once both versions are zero. *)
Lemma uvMetadataLoad_both_zero (p : positive) (s s2 : state)
  (r1 r2 m0 : uvMetadata) :
  slots_read s r1 r2 s2 ->
  version r1 = 0 -> version r2 = 0 ->
  mem s !! p = Some m0 ->
  uvMetadataLoad p s =
    (rv ← ensure p; if nonzero rv then ret rv else ret OK)
      (set_mem s2 (<[p := zero_metadata]> (mem s2))).
Proof.
  intros H E1 E2 Hp.
  destruct (slots_read_frame _ _ _ _ H) as (Hm & _).
  rewrite <- Hm in Hp.
  after_reads H. rewrite E1, E2. cbn [Z.eqb andb].
  rewrite (bind_run _ _ _ _ _ (deref_run _ _ _ Hp)).
  rewrite (bind_run _ _ _ _ _ (assign_run _ _ (set_version m0 0) _ Hp)).
  set (sa := set_mem s2 _).
  assert (Ha : mem sa !! p = Some (set_version m0 0))
    by apply lookup_insert_eq.
  rewrite (bind_run _ _ _ _ _ (deref_run _ _ _ Ha)).
  rewrite (bind_run _ _ _ _ _
             (assign_run _ _ (set_term (set_version m0 0) 0) _ Ha)).
  set (sb := set_mem sa _).
  assert (Hb : mem sb !! p = Some (set_term (set_version m0 0) 0))
    by apply lookup_insert_eq.
  rewrite (bind_run _ _ _ _ _ (deref_run _ _ _ Hb)).
  rewrite (bind_run _ _ _ _ _
             (assign_run _ _
                (set_voted_for (set_term (set_version m0 0) 0) 0) _ Hb)).
  f_equal. unfold sb, sa, set_mem. cbn. rewrite !insert_insert_eq.
  reflexivity.
Qed.

(** With equal versions other than zero the code returned is
    [RAFT_CORRUPT]. *)
Lemma tie_not_OK (p : positive) (s s2 s' : state) (r1 r2 : uvMetadata) :
  slots_read s r1 r2 s2 ->
  version r1 = version r2 ->
  version r1 <> 0 ->
  uvMetadataLoad p s = Some (OK, s') -> False.
Proof.
  intros Hread Heq Hnz. after_reads Hread.
  assert (E0 : (version r1 =? 0) = false) by lia. rewrite E0. cbn [andb].
  assert (E : (version r1 =? version r2) = true) by lia. rewrite E.
  discriminate.
Qed.

(** A run of [ensure] that returns [0], in full. *)
Lemma ensure_OK (p : positive) (s s' : state) (m : uvMetadata) :
  mem s !! p = Some m ->
  valid m ->
  ensure p s = Some (OK, s') ->
  version m + 2 < 2 ^ 64 /\
  s' = entered (stored (stored s p (set_version m (version m + 1)))
                       p (set_version m (version m + 2)))
               SyncDir.
Proof.
  intros Hp Hv Hrun.
  destruct (ensure_OK_inv p s s' m Hp Hv Hrun) as (Hmax & Hq).
  split; [exact Hmax |].
  rewrite (ensure_run p s m Hp) in Hrun; [| apply Hv | exact Hmax | exact Hq].
  cbn zeta in Hrun. by injection Hrun as <-.
Qed.

(** A run of [uvMetadataLoad] that returns [0] read both slots with code
    [0]. *)
Lemma uvMetadataLoad_OK_reads (p : positive) (s s' : state) :
  uvMetadataLoad p s = Some (OK, s') ->
  exists r1 r2 s2, slots_read s r1 r2 s2.
Proof.
  unfold uvMetadataLoad. intros H.
  apply bind_inv in H as ([rv1 r1] & s1 & L1 & H).
  destruct rv1; try discriminate H. cbn [nonzero] in H.
  apply bind_inv in H as ([] & s1' & G1 & H).
  apply bind_inv in H as ([rv2 r2] & s2 & L2 & H).
  destruct rv2; try discriminate H. cbn [nonzero] in H.
  apply bind_inv in H as ([] & s2' & G2 & H).
  exists r1, r2, s2', s1, s1', s2. auto.
Qed.

(** Every run of [uvMetadataLoad] that returns [0]: the versions read from
    the slots differ or are both zero, the caller is left with the
    authoritative record at its version plus 2, which did not wrap around,
    and the only writes made are that record at its version plus 1 and plus
    2, each to the file [slot_file] gives for the version. *)
Lemma uvMetadataLoad_OK (p : positive) (s s' : state) (m0 : uvMetadata) :
  mem s !! p = Some m0 ->
  uvMetadataLoad p s = Some (OK, s') ->
  exists r1 r2 s2,
    slots_read s r1 r2 s2 /\
    (version r1 = version r2 -> version r1 = 0) /\
    let r := authoritative r1 r2 in
    let w1 := set_version r (version r + 1) in
    let w2 := set_version r (version r + 2) in
    version r + 2 < 2 ^ 64 /\
    mem s' !! p = Some w2 /\
    writes s' =
      writes s ++ [MakeOrReplaceFile (slot_file (version w1)) (encode w1);
                   MakeOrReplaceFile (slot_file (version w2)) (encode w2)] /\
    files s' =
      <[slot_file (version w2) := encode w2]>
        (<[slot_file (version w1) := encode w1]> (files s)).
Proof.
  intros Hp Hrun.
  destruct (uvMetadataLoad_OK_reads p s s' Hrun) as (r1 & r2 & s2 & Hread).
  exists r1, r2, s2. split; [exact Hread |].
  destruct (slots_read_frame _ _ _ _ Hread) as (Hm & Hfs & Hw & V1 & V2).
  assert (Hp2 : mem s2 !! p = Some m0) by (by rewrite Hm).
  unfold authoritative.
  destruct (Z.eq_dec (version r1) (version r2)) as [Heq | Hne].
  - destruct (Z.eq_dec (version r1) 0) as [Hz | Hnz].
    + (* both zero *)
      split; [done |].
      assert (Hz2 : version r2 = 0) by lia.
      rewrite (uvMetadataLoad_both_zero p s s2 r1 r2 m0 Hread Hz Hz2 Hp)
        in Hrun.
      apply bind_inv in Hrun as (rv & s3 & Hens & Hret).
      destruct rv; try discriminate Hret. injection Hret as <-.
      apply (ensure_OK p _ _ zero_metadata) in Hens as (Hmax & ->);
        [| apply lookup_insert_eq | apply valid_zero_metadata].
      rewrite Hz, Hz2. cbn [Z.eqb andb]. cbn zeta.
      split; [exact Hmax |]. split; [| split].
      * cbn. apply lookup_insert_eq.
      * autorewrite with writes. cbn [is_write].
        rewrite app_nil_r, <- app_assoc, Hw. reflexivity.
      * cbn. rewrite Hfs. reflexivity.
    + (* a tie *)
      exfalso.
      destruct (tie_not_OK p s s2 s' r1 r2 Hread Heq Hnz Hrun).
  - split; [done |].
    assert (E0 : (version r1 =? 0) && (version r2 =? 0) = false) by lia.
    rewrite E0.
    set (r := if version r1 >? version r2 then r1 else r2).
    assert (Vr : valid r)
      by (unfold r; destruct (version r1 >? version r2); assumption).
    rewrite (uvMetadataLoad_unequal p s s2 r1 r2 Hread Hne) in Hrun.
    fold r in Hrun.
    rewrite (bind_run _ _ _ _ _ (assign_run _ _ r _ Hp2)) in Hrun.
    apply bind_inv in Hrun as (rv & s3 & Hens & Hret).
    destruct rv; try discriminate Hret. injection Hret as <-.
    apply (ensure_OK p _ _ r) in Hens as (Hmax & ->);
      [| apply lookup_insert_eq | exact Vr].
    cbn zeta. split; [exact Hmax |]. split; [| split].
    + cbn. apply lookup_insert_eq.
    + autorewrite with writes. cbn [is_write].
      rewrite app_nil_r, <- app_assoc, Hw. reflexivity.
    + cbn. rewrite Hfs. reflexivity.
Qed.

(** ** Failing runs of the normalization *)

(** A turn of the loop of [ensure] whose write fails: the loop ends there
    with [RAFT_IOERR], the version of the caller's record already advanced. *)
Lemma ensure_loop_fail_step (todo : nat) (p : positive) (s : state)
  (m : uvMetadata) :
  mem s !! p = Some m ->
  0 <= version m -> version m + 1 < 2 ^ 64 ->
  hd false (faults s) = true ->
  ensure_loop (S todo) p s =
    let w := set_version m (version m + 1) in
    Some (RAFT_IOERR,
          logged (entered (set_mem s (<[p := w]> (mem s)))
                          (MakeOrReplaceFile (slot_file (version w))
                                             (encode w)))
                 (mkLog ERROR "create %s: %s"
                        [Str (slot_file (version w)); ErrMsgString])).
Proof.
  intros Hp H0 H1 Hf. cbn [ensure_loop].
  rewrite (bind_run _ _ _ _ _ (deref_run _ _ _ Hp)).
  rewrite (bind_run _ _ _ _ _ (assign_run _ _ _ _ Hp)).
  rewrite u64_succ by assumption.
  erewrite bind_run; cycle 1.
  { rewrite (uvMetadataStore_run p _ (set_version m (version m + 1))).
    - cbn [faults set_mem]. rewrite Hf. cbn zeta. reflexivity.
    - apply lookup_insert_eq.
    - cbn. lia. }
  reflexivity.
Qed.

(** A turn of the loop of [ensure] that takes the version from 2^64 - 1 to
    0: the assertion of [uvMetadataStore] fails. *)
Lemma ensure_loop_wrap_step (todo : nat) (p : positive) (s : state)
  (m : uvMetadata) :
  mem s !! p = Some m ->
  version m + 1 = 2 ^ 64 ->
  ensure_loop (S todo) p s = None.
Proof.
  intros Hp Hwrap. cbn [ensure_loop].
  rewrite (bind_run _ _ _ _ _ (deref_run _ _ _ Hp)).
  rewrite (bind_run _ _ _ _ _ (assign_run _ _ _ _ Hp)).
  unfold mbind, M_bind, bind.
  rewrite (uvMetadataStore_abort p _ (set_version m (u64 (version m + 1))));
    [reflexivity | apply lookup_insert_eq |].
  cbn [version set_version]. unfold u64. rewrite Hwrap.
  rewrite Z.mod_same by (apply Z.pow_nonzero; lia). lia.
Qed.

Lemma uvMetadataStore_codes (p : positive) (s s' : state) (rv : status) :
  uvMetadataStore p s = Some (rv, s') -> rv = OK \/ rv = RAFT_IOERR.
Proof.
  unfold uvMetadataStore, UvFsMakeOrReplaceFile, put_file, uvErrorf, uvLog,
    deref, mbind, M_bind, bind, mret, M_ret, ret, assert, fs_enter.
  intros H. repeat (case_match; simplify_eq; cbn in * ); auto.
Qed.

Lemma ensure_loop_codes (todo : nat) (p : positive) (s s' : state)
  (rv : status) :
  ensure_loop todo p s = Some (rv, s') -> rv = OK \/ rv = RAFT_IOERR.
Proof.
  revert s. induction todo as [|todo IH]; intros s H.
  - injection H as <- <-. by left.
  - cbn [ensure_loop] in H.
    apply bind_inv in H as (m & s1 & _ & H).
    apply bind_inv in H as ([] & s2 & _ & H).
    apply bind_inv in H as (rv1 & s3 & Hst & H).
    apply uvMetadataStore_codes in Hst as [-> | ->].
    + cbn [nonzero] in H. by apply (IH s3).
    + injection H as <- <-. by right.
Qed.

(** [ensure] hands on two codes only. *)
Lemma ensure_codes (p : positive) (s s' : state) (rv : status) :
  ensure p s = Some (rv, s') -> rv = OK \/ rv = RAFT_IOERR.
Proof.
  unfold ensure. intros H.
  apply bind_inv in H as (rv1 & s1 & Hloop & H).
  apply ensure_loop_codes in Hloop as [-> | ->].
  - cbn [nonzero] in H.
    unfold UvFsSyncDir, uvErrorf, uvLog, mbind, M_bind, bind, fs_enter in H.
    destruct (hd false (faults s1)); injection H as <- <-; auto.
  - injection H as <- <-. by right.
Qed.

(** The runs of [ensure] that return another code than [0], in the model
    of the filesystem above: the code is [RAFT_IOERR], and the run stopped
    at the first write, at the second write or at the sync. *)
Lemma ensure_stops_at_fault (p : positive) (s s' : state) (m : uvMetadata)
  (rv : status) :
  mem s !! p = Some m ->
  valid m ->
  ensure p s = Some (rv, s') ->
  rv <> OK ->
  let w1 := set_version m (version m + 1) in
  let w2 := set_version m (version m + 2) in
  let c1 := MakeOrReplaceFile (slot_file (version w1)) (encode w1) in
  let c2 := MakeOrReplaceFile (slot_file (version w2)) (encode w2) in
  rv = RAFT_IOERR /\
  ((hd false (faults s) = true /\
    mem s' !! p = Some w1 /\ files s' = files s /\
    calls s' = calls s ++ [c1]) \/
   (no_fault 1 (faults s) = true /\ hd false (tl (faults s)) = true /\
    mem s' !! p = Some w2 /\
    files s' = <[slot_file (version w1) := encode w1]> (files s) /\
    calls s' = calls s ++ [c1; c2]) \/
   (no_fault 2 (faults s) = true /\ hd false (tl (tl (faults s))) = true /\
    mem s' !! p = Some w2 /\
    files s' =
      <[slot_file (version w2) := encode w2]>
        (<[slot_file (version w1) := encode w1]> (files s)) /\
    calls s' = calls s ++ [c1; c2; SyncDir])).
Proof.
  intros Hp Vm Hrun Hrv w1 w2 c1 c2.
  assert (H0 : 0 <= version m) by apply Vm.
  assert (Hlt : version m < 2 ^ 64) by apply Vm.
  unfold ensure in Hrun.
  apply bind_inv in Hrun as (rv0 & s0 & Hloop & Hrest).
  destruct (Z.eq_dec (version m + 1) (2 ^ 64)) as [Hwrap | Hnw].
  { by rewrite (ensure_loop_wrap_step 1 p s m Hp Hwrap) in Hloop. }
  assert (H1 : version m + 1 < 2 ^ 64) by lia.
  destruct (hd false (faults s)) eqn:Hf1.
  { (* the first write fails *)
    rewrite (ensure_loop_fail_step 1 p s m Hp H0 H1 Hf1) in Hloop.
    cbn zeta in Hloop. injection Hloop as <- <-.
    cbn [nonzero] in Hrest. injection Hrest as <- <-.
    split; [reflexivity |]. left. repeat split.
    cbn. apply lookup_insert_eq. }
  rewrite (ensure_loop_step 1 p s m Hp H0 H1 Hf1) in Hloop. fold w1 in Hloop.
  assert (Hp1 : mem (stored s p w1) !! p = Some w1) by apply lookup_insert_eq.
  destruct (Z.eq_dec (version w1 + 1) (2 ^ 64)) as [Hwrap | Hnw2].
  { by rewrite (ensure_loop_wrap_step 0 p _ w1 Hp1 Hwrap) in Hloop. }
  assert (H2 : version w1 + 1 < 2 ^ 64) by (cbn in *; lia).
  assert (H01 : 0 <= version w1) by (cbn; lia).
  assert (Ew : set_version w1 (version w1 + 1) = w2).
  { unfold w1, w2, set_version. cbn. f_equal. lia. }
  destruct (hd false (tl (faults s))) eqn:Hf2.
  { (* the second write fails *)
    rewrite (ensure_loop_fail_step 0 p _ w1 Hp1 H01 H2 Hf2) in Hloop.
    cbn zeta in Hloop. rewrite Ew in Hloop. injection Hloop as <- <-.
    cbn [nonzero] in Hrest. injection Hrest as <- <-.
    split; [reflexivity |]. right. left.
    split; [by apply no_fault_cons |]. repeat split.
    - cbn. apply lookup_insert_eq.
    - cbn. by rewrite <- app_assoc. }
  rewrite (ensure_loop_step 0 p _ w1 Hp1 H01 H2 Hf2) in Hloop.
  rewrite Ew in Hloop. cbn [ensure_loop] in Hloop. injection Hloop as <- <-.
  cbn [nonzero] in Hrest.
  unfold UvFsSyncDir, mbind, M_bind, bind, fs_enter in Hrest.
  cbn [faults stored] in Hrest.
  destruct (hd false (tl (tl (faults s)))) eqn:Hf3.
  - (* the sync fails *)
    injection Hrest as <- <-. split; [reflexivity |]. right. right.
    split; [by repeat apply no_fault_cons |]. repeat split.
    + cbn. apply lookup_insert_eq.
    + cbn. by rewrite <- !app_assoc.
  - injection Hrest as <- <-. by destruct Hrv.
Qed.

(** * The properties of the spec *)

(** ** Slot naming *)

(** C1, as the code has it at the first version past [INT_MAX]: the spec
    asks for slot 1 at every odd version and for alternating slots.  The
    version reaches [indexOf] through an [int] parameter; 2147483649 is odd
    and arrives as -2147483647, whose remainder by 2 is -1, so the record goes
    to slot 2.  The two turns of the loop of [ensure] started at version
    2147483647 store versions 2147483648 and 2147483649, one after the
    other, both into the second slot file. *)
Theorem indexOf_past_int_max :
  Z.odd 2147483649 = true /\
  to_int 2147483649 = -2147483647 /\
  indexOf (to_int 2147483649) = 2 /\
  indexOf (to_int 2147483648) = 2 /\
  exists s',
    ensure_loop 2 caller (start (mkMetadata 2147483647 1 1) fresh_dir)
      = Some (OK, s') /\
    writes s' =
      [MakeOrReplaceFile "metadata2" (encode (mkMetadata 2147483648 1 1));
       MakeOrReplaceFile "metadata2" (encode (mkMetadata 2147483649 1 1))].
Proof.
  repeat (split; [reflexivity |]).
  eexists. split; [vm_compute; reflexivity | vm_compute; reflexivity].
Qed.

(** ** Reconciliation *)




(** C3 as the spec states it, refuted on its fresh-start scenario: with no
    slot file in the directory, a successful [uvMetadataLoad] does not leave
    the zero record with its caller. *)
Lemma fresh_start_not_zero_record :
  ~ (exists s',
       uvMetadataLoad caller (scenario fresh_dir) = Some (OK, s') /\
       mem s' !! caller = Some (mkMetadata 0 0 0)).
Proof.
  intros (s' & Hrun & Hrec). vm_compute in Hrun.
  injection Hrun as <-. vm_compute in Hrec. discriminate Hrec.
Qed.

(** C3, amended: when neither slot file exists and none of the five
    filesystem calls fails, both slots are read as the zero record, the
    authoritative record is the zero record, and [uvMetadataLoad] returns
    [0] with the record [{version 2, term 0, voted_for 0}] left with its
    caller; the two writes it made are version 1 to the first slot file and
    version 2 to the second, so that the directory then holds these two files
    next to whatever else it held. *)
Theorem load_fresh_start (p : positive) (s : state) (m0 : uvMetadata) :
  mem s !! p = Some m0 ->
  files s !! "metadata1" = None ->
  files s !! "metadata2" = None ->
  no_fault 5 (faults s) = true ->
  exists s',
    uvMetadataLoad p s = Some (OK, s') /\
    mem s' !! p = Some (mkMetadata 2 0 0) /\
    writes s' =
      writes s ++ [MakeOrReplaceFile "metadata1" (encode (mkMetadata 1 0 0));
                   MakeOrReplaceFile "metadata2" (encode (mkMetadata 2 0 0))] /\
    files s' =
      <["metadata2" := encode (mkMetadata 2 0 0)]>
        (<["metadata1" := encode (mkMetadata 1 0 0)]> (files s)).
Proof.
  intros Hp H1 H2 Hq.
  apply no_fault_S in Hq as [Hf1 Hq]. apply no_fault_S in Hq as [Hf2 Hq].
  set (s2 := logged (entered (logged (entered s (FileExists "metadata1"))
                                     (mkLog DEBUG
                                        "metadata1: version %lld, term %lld, voted for %d"
                                        [Num 0; Num 0; Num 0]))
                             (FileExists "metadata2"))
                    (mkLog DEBUG
                       "metadata2: version %lld, term %lld, voted for %d"
                       [Num 0; Num 0; Num 0])).
  assert (Hread : slots_read s zero_metadata zero_metadata s2).
  { eexists _, _, _. split; [| split; [reflexivity | split; [| reflexivity]]].
    - apply (loadFile_absent 1); [by left | exact Hf1 | exact H1].
    - apply (loadFile_absent 2); [by right | exact Hf2 | exact H2]. }
  exists (entered (stored (stored (set_mem s2 (<[p := zero_metadata]> (mem s2)))
                             p (mkMetadata 1 0 0)) p (mkMetadata 2 0 0))
                  SyncDir).
  rewrite (uvMetadataLoad_both_zero p s s2 _ _ m0 Hread eq_refl eq_refl Hp).
  erewrite bind_run; cycle 1.
  { apply (ensure_run p _ zero_metadata).
    - apply lookup_insert_eq.
    - cbn. lia.
    - cbn. lia.
    - exact Hq. }
  split; [reflexivity |]. split; [| split].
  - cbn. apply lookup_insert_eq.
  - unfold s2. autorewrite with writes. cbn [is_write].
    rewrite !app_nil_r, <- app_assoc. reflexivity.
  - reflexivity.
Qed.

(** The fresh-start scenario of the spec: an empty directory. *)
Lemma load_fresh_start_empty :
  exists s',
    uvMetadataLoad caller (scenario fresh_dir) = Some (OK, s') /\
    mem s' !! caller = Some (mkMetadata 2 0 0) /\
    writes s' =
      writes (scenario fresh_dir) ++
      [MakeOrReplaceFile "metadata1" (encode (mkMetadata 1 0 0));
       MakeOrReplaceFile "metadata2" (encode (mkMetadata 2 0 0))] /\
    files s' =
      <["metadata2" := encode (mkMetadata 2 0 0)]>
        (<["metadata1" := encode (mkMetadata 1 0 0)]> fresh_dir).
Proof.
  apply (load_fresh_start caller (scenario fresh_dir) (mkMetadata 7 7 7));
    reflexivity.
Defined.

(** ** Record codec *)

(** C4: for every record of 64-bit fields with a version above zero, the
    encoded buffer has the fixed size of 32 bytes and decoding it succeeds
    with the very same record, whatever the out-record held before. *)
Theorem decode_encode_roundtrip (r m0 : uvMetadata) :
  valid r ->
  0 < version r ->
  length (encode r) = 32%nat /\ decode (encode r) m0 = (OK, r).
Proof.
  intros Hv _. split.
  - apply length_encode.
  - by apply decode_encode.
Qed.

Lemma decode_encode_roundtrip_witness :
  length (encode (mkMetadata 4 2 5)) = 32%nat /\
  decode (encode (mkMetadata 4 2 5)) zero_metadata = (OK, mkMetadata 4 2 5).
Proof.
  apply decode_encode_roundtrip.
  - unfold valid, is_u64. cbn. lia.
  - cbn. lia.
Defined.

(** C5, as the code has it on a tag that differs from the constant above
    bit 31 only: the spec asks for [RAFT_MALFORMED] whenever the first
    8-byte field is not the format constant.  [high_tag_buffer] is 32 bytes
    long and its first field reads 4294967297, not 1; [decode] keeps the low
    32 bits of the field, finds 1, and succeeds with the three fields that
    follow. *)
Theorem decode_accepts_high_tag :
  length high_tag_buffer = 32%nat /\
  (byteGet64 high_tag_buffer).1 = 4294967297 /\
  4294967297 <> UV__DISK_FORMAT /\
  decode high_tag_buffer zero_metadata = (OK, mkMetadata 7 8 9).
Proof.
  split; [reflexivity |]. split; [reflexivity |]. split; [discriminate |].
  vm_compute. reflexivity.
Qed.

(** [decode] fails in one way only, and only on a tag that is not the
    constant. *)
Lemma decode_failure (buf : list byte) (m0 r : uvMetadata) (rv : status) :
  decode buf m0 = (rv, r) ->
  rv <> OK ->
  rv = RAFT_MALFORMED /\ r = m0 /\ (byteGet64 buf).1 <> UV__DISK_FORMAT.
Proof.
  unfold decode. destruct (byteGet64 buf) as [tag c1] eqn:E0. cbn [fst].
  destruct (Z.eqb_spec (u32 tag) UV__DISK_FORMAT) as [E|E]; cbn [negb].
  - destruct (byteGet64 c1) as [v1 c2], (byteGet64 c2) as [v2 c3],
      (byteGet64 c3) as [v3 c4]. intros [= <- <-] Hrv. by destruct Hrv.
  - intros [= <- <-] _. repeat split. intros ->. by apply E.
Qed.

(** ** The per-slot read *)

(** C6: when the slot file exists and the read of its 32 bytes fails,
    [loadFile] tells the short read from the rest.  On [UV__NODATA] it
    returns [0] with the zero record and emits one warning; on any other
    failure it returns [RAFT_IOERR].  The short read gives what an absent
    slot file gives: code [0] and the zero record. *)
Theorem loadFile_read_failure (n : Z) (m0 : uvMetadata) (s s1 s2 : state)
  (rv : status) (buf : list byte) :
  n = 1 \/ n = 2 ->
  UvFsFileExists (filenameOf n) s = Some ((OK, true), s1) ->
  UvFsReadFileInto (filenameOf n) METADATA_CONTENT_SIZE s1
    = Some ((rv, buf), s2) ->
  rv <> OK ->
  loadFile n m0 s =
    (if decide (rv = UV__NODATA)
     then Some ((OK, zero_metadata),
                logged s2 (mkLog WARN "read %s: ignore incomplete data"
                                 [Str (filenameOf n)]))
     else Some ((RAFT_IOERR, zero_metadata), s2)) /\
  (forall s0 s0' : state,
     UvFsFileExists (filenameOf n) s0 = Some ((OK, false), s0') ->
     loadFile n m0 s0 = Some ((OK, zero_metadata), s0')).
Proof.
  intros Hn Hex Hrd Hrv. split.
  - unfold loadFile. rewrite slot_index_check by assumption.
    rewrite (bind_run _ _ _ _ _ (assert_true s)).
    rewrite (bind_run _ _ _ _ _ Hex). cbn [nonzero negb].
    rewrite (bind_run _ _ _ _ _ Hrd).
    destruct rv; try (by destruct Hrv); reflexivity.
  - intros s0 s0' Hab. unfold loadFile.
    rewrite slot_index_check by assumption.
    rewrite (bind_run _ _ _ _ _ (assert_true s0)).
    rewrite (bind_run _ _ _ _ _ Hab). reflexivity.
Qed.

(** The torn-write scenario of the spec: the second slot file holds 3
    bytes. *)
Lemma loadFile_read_failure_torn :
  loadFile 2 indeterminate (scenario torn_dir) =
    Some ((OK, zero_metadata),
          logged (entered (entered (scenario torn_dir)
                                   (FileExists "metadata2"))
                          (ReadFileInto "metadata2" 32))
                 (mkLog WARN "read %s: ignore incomplete data"
                        [Str "metadata2"])) /\
  (forall s0 s0' : state,
     UvFsFileExists "metadata2" s0 = Some ((OK, false), s0') ->
     loadFile 2 indeterminate s0 = Some ((OK, zero_metadata), s0')).
Proof.
  apply (loadFile_read_failure 2 indeterminate (scenario torn_dir)
           (entered (scenario torn_dir) (FileExists "metadata2"))
           (entered (entered (scenario torn_dir) (FileExists "metadata2"))
                    (ReadFileInto "metadata2" 32))
           UV__NODATA []).
  - by right.
  - vm_compute. reflexivity.
  - vm_compute. reflexivity.
  - discriminate.
Defined.

(** The torn-write scenario through the whole of the recovery: the torn
    second slot counts for nothing, the record of the first slot (version 3)
    is the authoritative one, and versions 4 and 5 are written. *)
Example load_torn_write :
  exists s',
    uvMetadataLoad caller (scenario torn_dir) = Some (OK, s') /\
    mem s' !! caller = Some (mkMetadata 5 2 5) /\
    writes s' =
      [MakeOrReplaceFile "metadata2" (encode (mkMetadata 4 2 5));
       MakeOrReplaceFile "metadata1" (encode (mkMetadata 5 2 5))] /\
    filter (fun r => log_level r = WARN) (tracer s') =
      [mkLog WARN "read %s: ignore incomplete data" [Str "metadata2"]].
Proof.
  eexists. split; [vm_compute; reflexivity |].
  repeat split; vm_compute; reflexivity.
Qed.

(** C8: when the content of the slot file decodes, the tag being accepted,
    into a record whose version is zero, [loadFile] returns [RAFT_CORRUPT]
    (and logs the error), although [decode] itself returned [0]. *)
Theorem loadFile_zero_version (n : Z) (m0 r : uvMetadata) (s s1 s2 : state)
  (content : list byte) :
  n = 1 \/ n = 2 ->
  UvFsFileExists (filenameOf n) s = Some ((OK, true), s1) ->
  UvFsReadFileInto (filenameOf n) METADATA_CONTENT_SIZE s1
    = Some ((OK, content), s2) ->
  decode content zero_metadata = (OK, r) ->
  version r = 0 ->
  loadFile n m0 s =
    Some ((RAFT_CORRUPT, r),
          logged s2 (mkLog ERROR "load %s: version is set to zero"
                           [Str (filenameOf n)])).
Proof.
  intros Hn Hex Hrd Hdec Hv. unfold loadFile.
  rewrite slot_index_check by assumption.
  rewrite (bind_run _ _ _ _ _ (assert_true s)).
  rewrite (bind_run _ _ _ _ _ Hex). cbn [nonzero negb].
  rewrite (bind_run _ _ _ _ _ Hrd). cbn [nonzero].
  rewrite Hdec. cbn [nonzero]. rewrite Hv. reflexivity.
Qed.

Lemma loadFile_zero_version_witness :
  loadFile 1 indeterminate (scenario zero_version_dir) =
    Some ((RAFT_CORRUPT, mkMetadata 0 2 5),
          logged (entered (entered (scenario zero_version_dir)
                                   (FileExists "metadata1"))
                          (ReadFileInto "metadata1" 32))
                 (mkLog ERROR "load %s: version is set to zero"
                        [Str "metadata1"])).
Proof.
  apply (loadFile_zero_version 1 indeterminate (mkMetadata 0 2 5)
           (scenario zero_version_dir)
           (entered (scenario zero_version_dir) (FileExists "metadata1"))
           _ (encode (mkMetadata 0 2 5))).
  - by left.
  - vm_compute. reflexivity.
  - vm_compute. reflexivity.
  - vm_compute. reflexivity.
  - reflexivity.
Defined.

(** ** Recovery *)

(** C7: when the two slots were read with equal versions other than zero,
    [uvMetadataLoad] returns [RAFT_CORRUPT] right after the reads: no write
    reached the filesystem, the files are as they were, and so are the
    records of the caller. *)
Theorem load_tie (p : positive) (s s2 : state) (r1 r2 : uvMetadata) :
  slots_read s r1 r2 s2 ->
  version r1 = version r2 ->
  version r1 <> 0 ->
  uvMetadataLoad p s = Some (RAFT_CORRUPT, s2) /\
  writes s2 = writes s /\ files s2 = files s /\ mem s2 = mem s.
Proof.
  intros Hread Heq Hnz.
  destruct (slots_read_frame _ _ _ _ Hread) as (Hm & Hfs & Hw & _).
  split; [| by repeat split].
  after_reads Hread.
  assert (E0 : (version r1 =? 0) = false) by lia. rewrite E0. cbn [andb].
  assert (E : (version r1 =? version r2) = true) by lia. rewrite E.
  reflexivity.
Qed.

Lemma load_tie_witness :
  let s2 := after_two_reads (scenario tie_dir) (mkMetadata 3 2 5)
                            (mkMetadata 3 2 6) in
  uvMetadataLoad caller (scenario tie_dir) = Some (RAFT_CORRUPT, s2) /\
  writes s2 = writes (scenario tie_dir) /\
  files s2 = files (scenario tie_dir) /\
  mem s2 = mem (scenario tie_dir).
Proof.
  apply (load_tie caller (scenario tie_dir) _
           (mkMetadata 3 2 5) (mkMetadata 3 2 6)).
  - apply (slots_read_present _ (encode (mkMetadata 3 2 5))
             (encode (mkMetadata 3 2 6)));
      [reflexivity | reflexivity | reflexivity | vm_compute; lia
      | vm_compute; lia | vm_compute; reflexivity | vm_compute; reflexivity
      | discriminate | discriminate].
  - reflexivity.
  - discriminate.
Defined.

(** ** Write path *)

(** C9: for every record with a version above zero, [uvMetadataStore]
    returns, with [0] or with [RAFT_IOERR], and in both cases the memory of
    its caller is what it was: the record passed in is unchanged. *)
Theorem uvMetadataStore_frame (p : positive) (s : state) (m : uvMetadata) :
  mem s !! p = Some m ->
  0 < version m ->
  exists (rv : status) (s' : state),
    uvMetadataStore p s = Some (rv, s') /\
    (rv = OK \/ rv = RAFT_IOERR) /\
    mem s' = mem s /\ mem s' !! p = Some m.
Proof.
  intros Hp Hv. rewrite (uvMetadataStore_run p s m Hp Hv). cbn zeta.
  destruct (hd false (faults s)).
  - eexists _, _. split; [reflexivity |]. split; [by right |]. by split.
  - eexists _, _. split; [reflexivity |]. split; [by left |]. by split.
Qed.

Lemma uvMetadataStore_frame_witness :
  exists (rv : status) (s' : state),
    uvMetadataStore caller (start (mkMetadata 4 2 5) fresh_dir)
      = Some (rv, s') /\
    (rv = OK \/ rv = RAFT_IOERR) /\
    mem s' = mem (start (mkMetadata 4 2 5) fresh_dir) /\
    mem s' !! caller = Some (mkMetadata 4 2 5).
Proof.
  apply (uvMetadataStore_frame caller (start (mkMetadata 4 2 5) fresh_dir)
           (mkMetadata 4 2 5)).
  - reflexivity.
  - cbn. lia.
Defined.

(** C10, as the code has it when the authoritative version is [INT_MAX]:
    the spec asks for the two slot files to hold the authoritative version
    plus 1 and plus 2.  With version 2147483647 in the first slot and no
    second slot, [uvMetadataLoad] returns [0] and leaves version 2147483649
    with its caller, but both normalization writes went to the second slot
    file (see C1): the first slot file still holds version 2147483647, and
    version 2147483648 is in neither. *)
Theorem load_at_int_max :
  exists s',
    uvMetadataLoad caller (scenario int_max_dir) = Some (OK, s') /\
    mem s' !! caller = Some (mkMetadata 2147483649 1 1) /\
    writes s' =
      [MakeOrReplaceFile "metadata2" (encode (mkMetadata 2147483648 1 1));
       MakeOrReplaceFile "metadata2" (encode (mkMetadata 2147483649 1 1))] /\
    files s' !! "metadata1" = Some (encode (mkMetadata 2147483647 1 1)) /\
    files s' !! "metadata2" = Some (encode (mkMetadata 2147483649 1 1)).
Proof.
  eexists. split; [vm_compute; reflexivity |].
  repeat split; vm_compute; reflexivity.
Qed.

(** * Further properties of the code *)

(** ** Record codec *)

(** X1: two records of 64-bit fields with the same encoding are the same
    record. *)
Theorem encode_injective (m1 m2 : uvMetadata) :
  valid m1 -> valid m2 -> encode m1 = encode m2 -> m1 = m2.
Proof.
  intros V1 V2 E.
  pose proof (decode_encode m1 zero_metadata V1) as D1.
  pose proof (decode_encode m2 zero_metadata V2) as D2.
  rewrite E in D1. congruence.
Qed.

Lemma encode_injective_witness :
  mkMetadata 4 2 5 = set_version (mkMetadata 3 2 5) 4.
Proof.
  apply encode_injective.
  - unfold valid, is_u64. cbn. lia.
  - unfold valid, is_u64. cbn. lia.
  - reflexivity.
Defined.

(** X2: [decode] refuses a buffer in one way only.  When it does not return
    [0] the code is [RAFT_MALFORMED], the first 8-byte field of the buffer is
    not the format constant, and the record behind the out-pointer is as it
    was: none of its fields was written. *)
Theorem decode_refusal (buf : list byte) (m0 : uvMetadata) :
  (decode buf m0).1 <> OK ->
  (decode buf m0).1 = RAFT_MALFORMED /\
  (decode buf m0).2 = m0 /\
  (byteGet64 buf).1 <> UV__DISK_FORMAT.
Proof.
  destruct (decode buf m0) as [rv r] eqn:Hdec. cbn [fst snd]. intros Hrv.
  exact (decode_failure buf m0 r rv Hdec Hrv).
Qed.

Lemma decode_refusal_witness :
  (decode bad_tag_buffer (mkMetadata 7 7 7)).1 = RAFT_MALFORMED /\
  (decode bad_tag_buffer (mkMetadata 7 7 7)).2 = mkMetadata 7 7 7 /\
  (byteGet64 bad_tag_buffer).1 <> UV__DISK_FORMAT.
Proof.
  apply (decode_refusal bad_tag_buffer (mkMetadata 7 7 7)).
  vm_compute. discriminate.
Defined.

(** ** Slot naming *)

(** X4: below 2^31 two versions in a row go to the two different slot
    files, the odd one to the first and the even one to the second. *)
Theorem slot_alternation (v : Z) :
  0 <= v ->
  v + 1 < 2 ^ 31 ->
  (slot_file v = "metadata1" /\ slot_file (v + 1) = "metadata2" /\
   Z.odd v = true) \/
  (slot_file v = "metadata2" /\ slot_file (v + 1) = "metadata1" /\
   Z.odd v = false).
Proof.
  intros H0 H1. rewrite !slot_file_small by lia.
  change (v + 1) with (Z.succ v). rewrite Z.odd_succ, <- Z.negb_odd.
  destruct (Z.odd v); [left | right]; done.
Qed.

Lemma slot_alternation_witness :
  (slot_file 5 = "metadata1" /\ slot_file (5 + 1) = "metadata2" /\
   Z.odd 5 = true) \/
  (slot_file 5 = "metadata2" /\ slot_file (5 + 1) = "metadata1" /\
   Z.odd 5 = false).
Proof. apply slot_alternation; lia. Defined.

(** Whatever the [int] is, the index is 1 or 2. *)
Lemma indexOf_range (x : Z) : indexOf x = 1 \/ indexOf x = 2.
Proof. unfold indexOf. destruct (c_mod x 2 =? 1); auto. Qed.

Lemma slot_index_range (v : Z) :
  u16 (indexOf (to_int v)) = 1 \/ u16 (indexOf (to_int v)) = 2.
Proof. destruct (indexOf_range (to_int v)) as [-> | ->]; auto. Qed.

Lemma slot_file_range (v : Z) :
  slot_file v = "metadata1" \/ slot_file v = "metadata2".
Proof.
  unfold slot_file. destruct (slot_index_range v) as [-> | ->]; auto.
Qed.

(** ** Write path *)

(** X5: a store of a record with a version above zero makes one filesystem
    call, the write of the encoded record to one of the two slot files, and
    leaves the records of its caller alone.  It returns [0] when that call
    succeeded, the file then holding the encoding and the log being as it
    was, and [RAFT_IOERR] with one more error in the log when it failed. *)
Theorem uvMetadataStore_effect (p : positive) (s s' : state)
  (m : uvMetadata) (rv : status) :
  mem s !! p = Some m ->
  0 < version m ->
  uvMetadataStore p s = Some (rv, s') ->
  let f := slot_file (version m) in
  (f = "metadata1" \/ f = "metadata2") /\
  calls s' = calls s ++ [MakeOrReplaceFile f (encode m)] /\
  mem s' = mem s /\
  ((rv = OK /\ hd false (faults s) = false /\
    files s' = <[f := encode m]> (files s) /\ tracer s' = tracer s) \/
   (rv = RAFT_IOERR /\ hd false (faults s) = true /\
    tracer s' =
      tracer s ++ [mkLog ERROR "create %s: %s" [Str f; ErrMsgString]])).
Proof.
  intros Hp Hv Hrun f. rewrite (uvMetadataStore_run p s m Hp Hv) in Hrun.
  cbn zeta in Hrun. fold f in Hrun.
  split; [apply slot_file_range |].
  destruct (hd false (faults s)); injection Hrun as <- <-.
  - repeat split; try reflexivity. right. by repeat split.
  - repeat split; try reflexivity. left. by repeat split.
Qed.

Lemma uvMetadataStore_effect_witness :
  let s := start (mkMetadata 4 2 5) fresh_dir in
  let s' := state_after (uvMetadataStore caller) s in
  let f := slot_file 4 in
  (f = "metadata1" \/ f = "metadata2") /\
  calls s' = calls s ++ [MakeOrReplaceFile f (encode (mkMetadata 4 2 5))] /\
  mem s' = mem s /\
  ((OK = OK /\ hd false (faults s) = false /\
    files s' = <[f := encode (mkMetadata 4 2 5)]> (files s) /\
    tracer s' = tracer s) \/
   (OK = RAFT_IOERR /\ hd false (faults s) = true /\
    tracer s' =
      tracer s ++ [mkLog ERROR "create %s: %s" [Str f; ErrMsgString]])).
Proof.
  apply (uvMetadataStore_effect caller (start (mkMetadata 4 2 5) fresh_dir)
           _ (mkMetadata 4 2 5) OK).
  - reflexivity.
  - cbn. lia.
  - vm_compute. reflexivity.
Defined.

(** X6: what a successful store wrote is what the per-slot read of that slot
    gives back: the record, with code [0]. *)
Theorem store_then_loadFile (p : positive) (s : state) (m m0 : uvMetadata) :
  mem s !! p = Some m ->
  valid m ->
  0 < version m ->
  no_fault 3 (faults s) = true ->
  exists s1 s2,
    uvMetadataStore p s = Some (OK, s1) /\
    loadFile (u16 (indexOf (to_int (version m)))) m0 s1 = Some ((OK, m), s2).
Proof.
  intros Hp Vm Hv Hq. apply no_fault_S in Hq as [Hf Hq].
  rewrite (uvMetadataStore_run p s m Hp Hv). cbn zeta. rewrite Hf.
  eexists _, _. split; [reflexivity |].
  apply (loadFile_present _ _ m _ (encode m)).
  - apply slot_index_range.
  - exact Hq.
  - cbn. apply lookup_insert_eq.
  - by rewrite length_encode.
  - rewrite take_ge by (by rewrite length_encode). by apply decode_encode.
  - lia.
Qed.

Lemma store_then_loadFile_witness :
  exists s1 s2,
    uvMetadataStore caller (start (mkMetadata 4 2 5) fresh_dir)
      = Some (OK, s1) /\
    loadFile (u16 (indexOf (to_int 4))) indeterminate s1
      = Some ((OK, mkMetadata 4 2 5), s2).
Proof.
  apply (store_then_loadFile caller (start (mkMetadata 4 2 5) fresh_dir)
           (mkMetadata 4 2 5) indeterminate).
  - reflexivity.
  - unfold valid, is_u64. cbn. lia.
  - cbn. lia.
  - reflexivity.
Defined.

(** ** The per-slot read *)

(** The per-slot read hands on four codes only. *)
Lemma loadFile_codes (n : Z) (m0 r : uvMetadata) (s s' : state)
  (rv : status) :
  loadFile n m0 s = Some ((rv, r), s') ->
  rv = OK \/ rv = RAFT_IOERR \/ rv = RAFT_MALFORMED \/ rv = RAFT_CORRUPT.
Proof.
  unfold loadFile, UvFsFileExists, UvFsReadFileInto, uvWarnf, uvErrorf, uvLog,
    mbind, M_bind, bind, mret, M_ret, ret, assert, fs_enter, get_files.
  intros H.
  repeat (case_match; simplify_eq; cbn -[decode] in * ); auto.
  match goal with
  | Hd : decode _ _ = (?rv, _) |- _ =>
      apply decode_failure in Hd as (-> & _); [auto | by destruct rv]
  end.
Qed.

(** X7: for the slot indices 1 and 2 the per-slot read always returns (the
    assertion that follows a refused decode never fails), and the code is
    [0], [RAFT_IOERR], [RAFT_MALFORMED] or [RAFT_CORRUPT]: none of the codes
    of the filesystem layer gets through. *)
Theorem loadFile_returns (n : Z) (m0 : uvMetadata) (s : state) :
  n = 1 \/ n = 2 ->
  exists rv r s',
    loadFile n m0 s = Some ((rv, r), s') /\
    (rv = OK \/ rv = RAFT_IOERR \/ rv = RAFT_MALFORMED \/ rv = RAFT_CORRUPT).
Proof.
  intros Hn.
  destruct (loadFile n m0 s) as [[[rv r] s']|] eqn:Hrun.
  - exists rv, r, s'. split; [reflexivity |]. by eapply loadFile_codes.
  - exfalso. revert Hrun.
    unfold loadFile, UvFsFileExists, UvFsReadFileInto, uvWarnf, uvErrorf,
      uvLog, mbind, M_bind, bind, mret, M_ret, ret, assert, fs_enter,
      get_files.
    rewrite slot_index_check by assumption. intros H.
    repeat (case_match; simplify_eq; cbn -[decode] in * ).
    match goal with
    | Hd : decode _ _ = (?rv, _), Hb : bool_decide (?rv = RAFT_MALFORMED) = false
      |- _ =>
        apply decode_failure in Hd as (-> & _); [| by destruct rv];
        by rewrite bool_decide_eq_true_2 in Hb
    end.
Qed.

Lemma loadFile_returns_witness :
  exists rv r s',
    loadFile 2 indeterminate (scenario torn_dir) = Some ((rv, r), s') /\
    (rv = OK \/ rv = RAFT_IOERR \/ rv = RAFT_MALFORMED \/ rv = RAFT_CORRUPT).
Proof. apply loadFile_returns. by right. Defined.

(** X8: the per-slot read makes no write: the calls it made to the
    filesystem are the existence check of its slot file, followed or not by
    one read of 32 bytes of that file, and the files are as before. *)
Theorem loadFile_reads_only (n : Z) (m0 : uvMetadata) (s s' : state)
  (r : status * uvMetadata) :
  loadFile n m0 s = Some (r, s') ->
  files s' = files s /\
  (calls s' = calls s ++ [FileExists (filenameOf n)] \/
   calls s' = calls s ++ [FileExists (filenameOf n);
                          ReadFileInto (filenameOf n) METADATA_CONTENT_SIZE]).
Proof.
  unfold loadFile, UvFsFileExists, UvFsReadFileInto, uvWarnf, uvErrorf, uvLog,
    mbind, M_bind, bind, mret, M_ret, ret, assert, fs_enter, get_files.
  intros H.
  repeat (case_match; simplify_eq; cbn -[decode] in * );
    rewrite <- ?app_assoc; auto.
Qed.

Lemma loadFile_reads_only_witness :
  let s := scenario resume_dir in
  let s' := state_after (loadFile 1 indeterminate) s in
  files s' = files s /\
  (calls s' = calls s ++ [FileExists (filenameOf 1)] \/
   calls s' = calls s ++ [FileExists (filenameOf 1);
                          ReadFileInto (filenameOf 1) METADATA_CONTENT_SIZE]).
Proof.
  apply (loadFile_reads_only 1 indeterminate (scenario resume_dir) _
           (OK, mkMetadata 3 2 5)).
  vm_compute. reflexivity.
Defined.

(** X9: when the existence check fails, the per-slot read returns
    [RAFT_IOERR] at once: the record behind the out-pointer is not even
    zeroed, and no read is attempted. *)
Theorem loadFile_exists_failure (n : Z) (m0 : uvMetadata) (s s1 : state)
  (rv : status) (found : bool) :
  n = 1 \/ n = 2 ->
  UvFsFileExists (filenameOf n) s = Some ((rv, found), s1) ->
  rv <> OK ->
  loadFile n m0 s = Some ((RAFT_IOERR, m0), s1).
Proof.
  intros Hn Hex Hrv. unfold loadFile. rewrite slot_index_check by assumption.
  rewrite (bind_run _ _ _ _ _ (assert_true s)).
  rewrite (bind_run _ _ _ _ _ Hex).
  destruct rv; try (by destruct Hrv); reflexivity.
Qed.

Lemma loadFile_exists_failure_witness :
  loadFile 1 (mkMetadata 9 9 9) (with_faults (scenario resume_dir) [true]) =
    Some ((RAFT_IOERR, mkMetadata 9 9 9),
          entered (with_faults (scenario resume_dir) [true])
                  (FileExists "metadata1")).
Proof.
  apply (loadFile_exists_failure 1 (mkMetadata 9 9 9)
           (with_faults (scenario resume_dir) [true]) _ UV__ERROR false).
  - by left.
  - vm_compute. reflexivity.
  - discriminate.
Defined.

(** X10: when the 32 bytes read from the slot file are refused by [decode],
    the per-slot read returns the code of [decode], [RAFT_MALFORMED], logs the
    error, and hands back the zero record. *)
Theorem loadFile_malformed (n : Z) (m0 r : uvMetadata) (s s1 s2 : state)
  (content : list byte) (rv : status) :
  n = 1 \/ n = 2 ->
  UvFsFileExists (filenameOf n) s = Some ((OK, true), s1) ->
  UvFsReadFileInto (filenameOf n) METADATA_CONTENT_SIZE s1
    = Some ((OK, content), s2) ->
  decode content zero_metadata = (rv, r) ->
  rv <> OK ->
  loadFile n m0 s =
    Some ((RAFT_MALFORMED, zero_metadata),
          logged s2 (mkLog ERROR "load %s: bad format version"
                           [Str (filenameOf n)])).
Proof.
  intros Hn Hex Hrd Hdec Hrv.
  destruct (decode_failure _ _ _ _ Hdec Hrv) as (-> & -> & _).
  unfold loadFile. rewrite slot_index_check by assumption.
  rewrite (bind_run _ _ _ _ _ (assert_true s)).
  rewrite (bind_run _ _ _ _ _ Hex). cbn [nonzero negb].
  rewrite (bind_run _ _ _ _ _ Hrd). cbn [nonzero].
  rewrite Hdec. reflexivity.
Qed.

Lemma loadFile_malformed_witness :
  loadFile 1 indeterminate (scenario bad_tag_dir) =
    Some ((RAFT_MALFORMED, zero_metadata),
          logged (entered (entered (scenario bad_tag_dir)
                                   (FileExists "metadata1"))
                          (ReadFileInto "metadata1" 32))
                 (mkLog ERROR "load %s: bad format version"
                        [Str "metadata1"])).
Proof.
  apply (loadFile_malformed 1 indeterminate zero_metadata
           (scenario bad_tag_dir)
           (entered (scenario bad_tag_dir) (FileExists "metadata1"))
           _ bad_tag_buffer RAFT_MALFORMED).
  - by left.
  - vm_compute. reflexivity.
  - vm_compute. reflexivity.
  - vm_compute. reflexivity.
  - discriminate.
Defined.

(** X11: a record read from a slot with code [0] is the zero record (the
    slot file is absent or too short) or has 64-bit fields and a version
    above zero (the slot file decoded). *)
Theorem loadFile_OK_record (n : Z) (m0 r : uvMetadata) (s s' : state) :
  loadFile n m0 s = Some ((OK, r), s') ->
  r = zero_metadata \/ (valid r /\ 0 < version r).
Proof.
  intros Hrun. pose proof (loadFile_valid _ _ _ _ _ Hrun) as Vr.
  revert Hrun.
  unfold loadFile, UvFsFileExists, UvFsReadFileInto, uvWarnf, uvErrorf, uvLog,
    mbind, M_bind, bind, mret, M_ret, ret, assert, fs_enter, get_files.
  intros H.
  repeat (case_match; simplify_eq; cbn -[decode] in * ); auto.
  right. split; [exact Vr |]. destruct Vr as ([? _] & _). lia.
Qed.

Lemma loadFile_OK_record_witness :
  mkMetadata 3 2 5 = zero_metadata \/
  (valid (mkMetadata 3 2 5) /\ 0 < version (mkMetadata 3 2 5)).
Proof.
  apply (loadFile_OK_record 1 indeterminate (mkMetadata 3 2 5)
           (scenario resume_dir)
           (state_after (loadFile 1 indeterminate) (scenario resume_dir))).
  vm_compute. reflexivity.
Defined.

(** X12: what the record behind the out-pointer held before the call never
    shows in what the per-slot read does.  Started from the same state with
    another record behind the pointer, it returns the same code and ends in
    the same state, and hands back the same record whenever the code is [0]:
    a local that was never initialised is as good as any. *)
Theorem loadFile_ignores_prior_record (n : Z) (m0 m0' r : uvMetadata)
  (s s' : state) (rv : status) :
  loadFile n m0 s = Some ((rv, r), s') ->
  exists r',
    loadFile n m0' s = Some ((rv, r'), s') /\ (rv = OK -> r' = r).
Proof.
  intros Hrun. pose proof (loadFile_indeterminate n m0 m0' s) as H.
  rewrite Hrun in H.
  destruct (loadFile n m0' s) as [[[rv' r'] s1']|]; [| destruct H].
  destruct H as (-> & -> & Hr). exists r'. split; [reflexivity |].
  intros Hok. symmetry. by apply Hr.
Qed.

Lemma loadFile_ignores_prior_record_witness :
  exists r',
    loadFile 1 (mkMetadata 9 9 9) (scenario resume_dir) =
      Some ((OK, r'),
            state_after (loadFile 1 indeterminate) (scenario resume_dir)) /\
    (OK = OK -> r' = mkMetadata 3 2 5).
Proof.
  apply (loadFile_ignores_prior_record 1 indeterminate (mkMetadata 9 9 9)).
  vm_compute. reflexivity.
Defined.

(** ** Normalization *)

(** X13: [ensure] returns [0] only when neither increment wrapped the
    version around and none of its three filesystem calls failed.  It then
    made exactly these calls: the write of the record at its version plus 1,
    the write at its version plus 2, each to the slot file of that version,
    and the sync of the directory; the caller's record is left at the
    version plus 2 and nothing was logged. *)
Theorem ensure_success (p : positive) (s s' : state) (m : uvMetadata) :
  mem s !! p = Some m ->
  valid m ->
  ensure p s = Some (OK, s') ->
  let w1 := set_version m (version m + 1) in
  let w2 := set_version m (version m + 2) in
  version m + 2 < 2 ^ 64 /\
  no_fault 3 (faults s) = true /\
  mem s' = <[p := w2]> (mem s) /\
  files s' =
    <[slot_file (version w2) := encode w2]>
      (<[slot_file (version w1) := encode w1]> (files s)) /\
  calls s' =
    calls s ++ [MakeOrReplaceFile (slot_file (version w1)) (encode w1);
                MakeOrReplaceFile (slot_file (version w2)) (encode w2);
                SyncDir] /\
  tracer s' = tracer s.
Proof.
  intros Hp Vm Hrun w1 w2.
  destruct (ensure_OK_inv p s s' m Hp Vm Hrun) as (Hmax & Hq).
  destruct (ensure_OK p s s' m Hp Vm Hrun) as (_ & ->).
  split; [exact Hmax |]. split; [exact Hq |]. fold w1 w2.
  split; [| split; [| split]].
  - cbn. by rewrite insert_insert_eq.
  - reflexivity.
  - cbn. rewrite <- !app_assoc. reflexivity.
  - reflexivity.
Qed.

Lemma ensure_success_witness :
  let s := start (mkMetadata 4 2 5) fresh_dir in
  let s' := state_after (ensure caller) s in
  let w1 := mkMetadata 5 2 5 in
  let w2 := mkMetadata 6 2 5 in
  4 + 2 < 2 ^ 64 /\
  no_fault 3 (faults s) = true /\
  mem s' = <[caller := w2]> (mem s) /\
  files s' =
    <[slot_file 6 := encode w2]> (<[slot_file 5 := encode w1]> (files s)) /\
  calls s' =
    calls s ++ [MakeOrReplaceFile (slot_file 5) (encode w1);
                MakeOrReplaceFile (slot_file 6) (encode w2);
                SyncDir] /\
  tracer s' = tracer s.
Proof.
  apply (ensure_success caller (start (mkMetadata 4 2 5) fresh_dir) _
           (mkMetadata 4 2 5)).
  - reflexivity.
  - unfold valid, is_u64. cbn. lia.
  - vm_compute. reflexivity.
Defined.

(** X14: when [ensure] returns another code than [0], the code is
    [RAFT_IOERR] and it stopped at the first filesystem call that failed:
    the first write (the caller's record is left at its version plus 1), the
    second write (version plus 2) or the sync (version plus 2).  The calls
    it made are those up to the one that failed, and the record of the
    caller keeps the advanced version although the call that should have
    carried it to the disk failed. *)
Theorem ensure_failure (p : positive) (s s' : state) (m : uvMetadata)
  (rv : status) :
  mem s !! p = Some m ->
  valid m ->
  ensure p s = Some (rv, s') ->
  rv <> OK ->
  let w1 := set_version m (version m + 1) in
  let w2 := set_version m (version m + 2) in
  let c1 := MakeOrReplaceFile (slot_file (version w1)) (encode w1) in
  let c2 := MakeOrReplaceFile (slot_file (version w2)) (encode w2) in
  rv = RAFT_IOERR /\
  ((hd false (faults s) = true /\
    mem s' !! p = Some w1 /\
    calls s' = calls s ++ [c1]) \/
   (no_fault 1 (faults s) = true /\ hd false (tl (faults s)) = true /\
    mem s' !! p = Some w2 /\
    calls s' = calls s ++ [c1; c2]) \/
   (no_fault 2 (faults s) = true /\ hd false (tl (tl (faults s))) = true /\
    mem s' !! p = Some w2 /\
    calls s' = calls s ++ [c1; c2; SyncDir])).
Proof.
  intros Hp Vm Hrun Hrv w1 w2 c1 c2.
  destruct (ensure_stops_at_fault p s s' m rv Hp Vm Hrun Hrv)
    as (-> & [(Hf & Hm & _ & Hc) | [(Hq & Hf & Hm & _ & Hc)
                                   | (Hq & Hf & Hm & _ & Hc)]]).
  - split; [reflexivity |]. left. auto.
  - split; [reflexivity |]. right. left. auto.
  - split; [reflexivity |]. right. right. auto.
Qed.

Lemma ensure_failure_witness :
  let s := with_faults (start (mkMetadata 4 2 5) fresh_dir)
                       [false; true] in
  let s' := state_after (ensure caller) s in
  let w1 := mkMetadata 5 2 5 in
  let w2 := mkMetadata 6 2 5 in
  let c1 := MakeOrReplaceFile (slot_file 5) (encode w1) in
  let c2 := MakeOrReplaceFile (slot_file 6) (encode w2) in
  RAFT_IOERR = RAFT_IOERR /\
  ((hd false (faults s) = true /\
    mem s' !! caller = Some w1 /\
    calls s' = calls s ++ [c1]) \/
   (no_fault 1 (faults s) = true /\ hd false (tl (faults s)) = true /\
    mem s' !! caller = Some w2 /\
    calls s' = calls s ++ [c1; c2]) \/
   (no_fault 2 (faults s) = true /\ hd false (tl (tl (faults s))) = true /\
    mem s' !! caller = Some w2 /\
    calls s' = calls s ++ [c1; c2; SyncDir])).
Proof.
  apply (ensure_failure caller
           (with_faults (start (mkMetadata 4 2 5) fresh_dir) [false; true])
           _ (mkMetadata 4 2 5) RAFT_IOERR).
  - reflexivity.
  - unfold valid, is_u64. cbn. lia.
  - vm_compute. reflexivity.
  - discriminate.
Defined.

(** X15: [ensure] never carries a version past 2^64 - 1.  On a record whose
    version is one of the last two, the increment that reaches 0 makes the
    assertion of [uvMetadataStore] fail, and the program aborts (once the
    first write, if there is one before, went through). *)
Theorem ensure_wrap_aborts (p : positive) (s : state) (m : uvMetadata) :
  mem s !! p = Some m ->
  valid m ->
  2 ^ 64 <= version m + 2 ->
  no_fault 1 (faults s) = true ->
  ensure p s = None.
Proof.
  intros Hp Vm Hhigh Hq. apply no_fault_S in Hq as [Hf _].
  assert (H0 : 0 <= version m) by apply Vm.
  assert (Hlt : version m < 2 ^ 64) by apply Vm.
  unfold ensure, mbind, M_bind, bind.
  destruct (Z.eq_dec (version m + 1) (2 ^ 64)) as [Hwrap | Hnw].
  - by rewrite (ensure_loop_wrap_step 1 p s m Hp Hwrap).
  - rewrite (ensure_loop_step 1 p s m Hp H0) by (assumption || lia).
    rewrite (ensure_loop_wrap_step 0 p _ (set_version m (version m + 1)));
      [reflexivity | apply lookup_insert_eq | cbn; lia].
Qed.

Lemma ensure_wrap_aborts_witness :
  ensure caller (start (mkMetadata (2 ^ 64 - 2) 2 5) fresh_dir) = None.
Proof.
  apply (ensure_wrap_aborts caller _ (mkMetadata (2 ^ 64 - 2) 2 5)).
  - reflexivity.
  - unfold valid, is_u64. cbn. lia.
  - cbn. lia.
  - reflexivity.
Defined.

(** ** Recovery *)

(** The ways a run of [uvMetadataLoad] can go: a read of the first slot that
    fails, a read of the second slot that fails, a tie, or a run of [ensure]
    on the authoritative record. *)
Lemma uvMetadataLoad_inv (p : positive) (s s' : state) (rv : status) :
  uvMetadataLoad p s = Some (rv, s') ->
  (exists r1, loadFile 1 indeterminate s = Some ((rv, r1), s') /\ rv <> OK) \/
  (exists r1 s1 s1' r2,
     loadFile 1 indeterminate s = Some ((OK, r1), s1) /\
     logMetadata "1" r1 s1 = Some (tt, s1') /\
     loadFile 2 indeterminate s1' = Some ((rv, r2), s') /\ rv <> OK) \/
  (exists r1 r2,
     slots_read s r1 r2 s' /\ version r1 = version r2 /\ version r1 <> 0 /\
     rv = RAFT_CORRUPT) \/
  (exists r1 r2 s2,
     slots_read s r1 r2 s2 /\ (version r1 = version r2 -> version r1 = 0) /\
     is_Some (mem s2 !! p) /\
     ensure p (set_mem s2 (<[p := authoritative r1 r2]> (mem s2)))
       = Some (rv, s')).
Proof.
  intros Hrun. pose proof Hrun as Hcopy. unfold uvMetadataLoad in Hrun.
  apply bind_inv in Hrun as ([rv1 r1] & s1 & L1 & H).
  destruct (nonzero rv1) eqn:N1.
  { injection H as <- <-. left. exists r1. split; [exact L1 |].
    intros ->. discriminate N1. }
  destruct rv1; try discriminate N1.
  apply bind_inv in H as ([] & s1' & G1 & H).
  apply bind_inv in H as ([rv2 r2] & s2 & L2 & H).
  destruct (nonzero rv2) eqn:N2.
  { injection H as <- <-. right. left. exists r1, s1, s1', r2.
    repeat split; try assumption. intros ->. discriminate N2. }
  destruct rv2; try discriminate N2.
  apply bind_inv in H as ([] & s2' & G2 & H).
  assert (Hread : slots_read s r1 r2 s2') by (exists s1, s1', s2; auto).
  right. right.
  destruct (Z.eq_dec (version r1) (version r2)) as [Heq | Hne].
  - destruct (Z.eq_dec (version r1) 0) as [Hz | Hnz].
    + (* both zero *)
      right. exists r1, r2, s2'. split; [exact Hread |]. split; [done |].
      assert (Hz2 : version r2 = 0) by lia.
      rewrite Hz, Hz2 in H. cbn [Z.eqb andb] in H.
      apply bind_inv in H as (m0 & sa & Hd & _).
      unfold deref in Hd. destruct (mem s2' !! p) as [m0'|] eqn:Hp2;
        [| discriminate Hd].
      split; [by eexists |].
      destruct (slots_read_frame _ _ _ _ Hread) as (Hm & _).
      rewrite Hm in Hp2.
      rewrite (uvMetadataLoad_both_zero p s s2' r1 r2 m0' Hread Hz Hz2 Hp2)
        in Hcopy.
      apply bind_inv in Hcopy as (rv0 & s3 & Hens & Hret).
      unfold authoritative. rewrite Hz, Hz2. cbn [Z.eqb andb].
      destruct rv0; injection Hret as <- <-; exact Hens.
    + (* a tie *)
      left. exists r1, r2.
      assert (E0 : (version r1 =? 0) = false) by lia.
      assert (E : (version r1 =? version r2) = true) by lia.
      rewrite E0, E in H. cbn [andb] in H. injection H as <- <-. auto.
  - right. exists r1, r2, s2'. split; [exact Hread |]. split; [done |].
    rewrite (uvMetadataLoad_unequal p s s2' r1 r2 Hread Hne) in Hcopy.
    apply bind_inv in Hcopy as ([] & s3 & Has & Hcopy).
    unfold assign in Has. destruct (mem s2' !! p) as [m0'|] eqn:Hp2;
      [| discriminate Has].
    injection Has as <-. split; [by eexists |].
    apply bind_inv in Hcopy as (rv0 & s4 & Hens & Hret).
    unfold authoritative.
    assert (E0 : (version r1 =? 0) && (version r2 =? 0) = false) by lia.
    rewrite E0.
    destruct rv0; injection Hret as <- <-; exact Hens.
Qed.

(** X16: every run of [uvMetadataLoad] that returns [0] read both slots with
    code [0] and with versions that differ or are both zero; the caller is
    left with the authoritative record at its version plus 2, which did not
    wrap around, term and vote as read; and the writes made are that record
    at its version plus 1 and plus 2, each to the slot file [slot_file] gives
    for its version, on top of the files as they were. *)
Theorem load_success_effects (p : positive) (s s' : state) (m0 : uvMetadata) :
  mem s !! p = Some m0 ->
  uvMetadataLoad p s = Some (OK, s') ->
  exists r1 r2 s2,
    slots_read s r1 r2 s2 /\
    (version r1 = version r2 -> version r1 = 0) /\
    let r := authoritative r1 r2 in
    let w1 := set_version r (version r + 1) in
    let w2 := set_version r (version r + 2) in
    version r + 2 < 2 ^ 64 /\
    mem s' !! p = Some w2 /\
    writes s' =
      writes s ++ [MakeOrReplaceFile (slot_file (version w1)) (encode w1);
                   MakeOrReplaceFile (slot_file (version w2)) (encode w2)] /\
    files s' =
      <[slot_file (version w2) := encode w2]>
        (<[slot_file (version w1) := encode w1]> (files s)).
Proof. exact (uvMetadataLoad_OK p s s' m0). Qed.

Lemma load_success_effects_witness :
  let s := scenario torn_dir in
  let s' := state_after (uvMetadataLoad caller) s in
  exists r1 r2 s2,
    slots_read s r1 r2 s2 /\
    (version r1 = version r2 -> version r1 = 0) /\
    let r := authoritative r1 r2 in
    let w1 := set_version r (version r + 1) in
    let w2 := set_version r (version r + 2) in
    version r + 2 < 2 ^ 64 /\
    mem s' !! caller = Some w2 /\
    writes s' =
      writes s ++ [MakeOrReplaceFile (slot_file (version w1)) (encode w1);
                   MakeOrReplaceFile (slot_file (version w2)) (encode w2)] /\
    files s' =
      <[slot_file (version w2) := encode w2]>
        (<[slot_file (version w1) := encode w1]> (files s)).
Proof.
  apply (load_success_effects caller (scenario torn_dir) _
           (mkMetadata 7 7 7)).
  - reflexivity.
  - vm_compute. reflexivity.
Defined.

(** X17: a run of [uvMetadataLoad] is all or nothing as far as its reads go.
    Either it returned an error code having assigned to no metadata record
    and written no file (the metadata records of the caller and the files
    are as before, and no write call was made), or both slots were read with
    code [0] and with versions that differ or are both zero, and the code
    returned is that of the normalization, [0] or [RAFT_IOERR]. *)
Theorem uvMetadataLoad_all_or_nothing (p : positive) (s s' : state)
  (rv : status) :
  uvMetadataLoad p s = Some (rv, s') ->
  (mem s' = mem s /\ files s' = files s /\ writes s' = writes s /\
   rv <> OK) \/
  (exists r1 r2 s2,
     slots_read s r1 r2 s2 /\
     (version r1 = version r2 -> version r1 = 0) /\
     (rv = OK \/ rv = RAFT_IOERR)).
Proof.
  intros Hrun.
  destruct (uvMetadataLoad_inv p s s' rv Hrun)
    as [(r1 & L1 & Hrv) | [(r1 & s1 & s1' & r2 & L1 & G1 & L2 & Hrv)
       | [(r1 & r2 & Hread & _ & _ & ->) | (r1 & r2 & s2 & Hread & Hv & _ & Hens)]]].
  - left. apply loadFile_frame in L1 as (? & ? & ?). auto.
  - left. apply loadFile_frame in L1 as (? & ? & ?).
    apply loadFile_frame in L2 as (? & ? & ?).
    apply logMetadata_run in G1 as (? & ? & ? & _).
    split; [congruence |]. split; [congruence |]. split; [congruence |].
    exact Hrv.
  - left. destruct (slots_read_frame _ _ _ _ Hread) as (? & ? & ? & _).
    repeat split; try assumption. discriminate.
  - right. exists r1, r2, s2. split; [exact Hread |]. split; [exact Hv |].
    by apply ensure_codes in Hens.
Qed.

Lemma uvMetadataLoad_all_or_nothing_witness :
  let s := scenario tie_dir in
  let s' := state_after (uvMetadataLoad caller) s in
  (mem s' = mem s /\ files s' = files s /\ writes s' = writes s /\
   RAFT_CORRUPT <> OK) \/
  (exists r1 r2 s2,
     slots_read s r1 r2 s2 /\
     (version r1 = version r2 -> version r1 = 0) /\
     (RAFT_CORRUPT = OK \/ RAFT_CORRUPT = RAFT_IOERR)).
Proof.
  apply (uvMetadataLoad_all_or_nothing caller (scenario tie_dir)).
  vm_compute. reflexivity.
Defined.

(** X18: [uvMetadataLoad] hands on four codes only: [0], [RAFT_IOERR],
    [RAFT_MALFORMED] and [RAFT_CORRUPT]. *)
Theorem uvMetadataLoad_codes (p : positive) (s s' : state) (rv : status) :
  uvMetadataLoad p s = Some (rv, s') ->
  rv = OK \/ rv = RAFT_IOERR \/ rv = RAFT_MALFORMED \/ rv = RAFT_CORRUPT.
Proof.
  intros Hrun.
  destruct (uvMetadataLoad_inv p s s' rv Hrun)
    as [(r1 & L1 & _) | [(r1 & s1 & s1' & r2 & _ & _ & L2 & _)
       | [(r1 & r2 & _ & _ & _ & ->) | (r1 & r2 & s2 & _ & _ & _ & Hens)]]].
  - by eapply loadFile_codes.
  - by eapply loadFile_codes.
  - auto.
  - apply ensure_codes in Hens as [-> | ->]; auto.
Qed.

Lemma uvMetadataLoad_codes_witness :
  RAFT_MALFORMED = OK \/ RAFT_MALFORMED = RAFT_IOERR \/
  RAFT_MALFORMED = RAFT_MALFORMED \/ RAFT_MALFORMED = RAFT_CORRUPT.
Proof.
  apply (uvMetadataLoad_codes caller (scenario bad_tag_dir)
           (state_after (uvMetadataLoad caller) (scenario bad_tag_dir))).
  vm_compute. reflexivity.
Defined.

Lemma no_fault_weaken (n : nat) (script : list bool) :
  no_fault (S n) script = true -> no_fault n script = true.
Proof.
  revert script. induction n as [|n IH]; intros script H; [reflexivity |].
  apply no_fault_S in H as [Hf Hq]. apply no_fault_cons; auto.
Qed.

(** Without a failure of the filesystem the per-slot read returns, and not
    with [RAFT_IOERR]; it used up one or two entries of the script. *)
Lemma loadFile_no_fault (n : Z) (m0 : uvMetadata) (s : state) :
  n = 1 \/ n = 2 ->
  no_fault 2 (faults s) = true ->
  exists rv r s',
    loadFile n m0 s = Some ((rv, r), s') /\
    (rv = OK \/ rv = RAFT_MALFORMED \/ rv = RAFT_CORRUPT) /\
    (faults s' = tl (faults s) \/ faults s' = tl (tl (faults s))).
Proof.
  intros Hn Hq. apply no_fault_S in Hq as [Hf1 Hq].
  apply no_fault_S in Hq as [Hf2 _].
  destruct (files s !! filenameOf n) as [content|] eqn:Hd.
  - destruct (Nat.ltb_spec (length content) METADATA_CONTENT_SIZE) as [Hs|Hl].
    + eexists _, _, _. split.
      * apply (loadFile_short n m0 s content); try assumption.
        by repeat apply no_fault_cons.
      * split; [by left | by right].
    + destruct (decode (take METADATA_CONTENT_SIZE content) zero_metadata)
        as [rv r] eqn:Hdec.
      unfold loadFile. rewrite slot_index_check by assumption.
      rewrite (bind_run _ _ _ _ _ (assert_true s)).
      rewrite (bind_run _ _ _ _ _ (UvFsFileExists_present _ _ _ Hf1 Hd)).
      cbn [nonzero negb].
      rewrite (bind_run _ _ _ _ _
                 (UvFsReadFileInto_full _ content _ (entered s _) Hf2 Hd Hl)).
      cbn [nonzero]. rewrite Hdec.
      destruct (nonzero rv) eqn:Nrv.
      * assert (Hrv : rv <> OK) by (intros ->; discriminate Nrv).
        destruct (decode_failure _ _ _ _ Hdec Hrv) as (-> & _).
        eexists _, _, _. split; [reflexivity |]. split; [auto | by right].
      * destruct (version r =? 0);
          (eexists _, _, _; split; [reflexivity |]);
          (split; [| by right]); [auto |].
        destruct rv; try discriminate Nrv. auto.
  - eexists _, _, _. split.
    + by apply (loadFile_absent n m0 s).
    + split; [by left | by left].
Qed.

(** A slot file that is there in full but does not decode to a record with a
    version makes the per-slot read fail. *)
Lemma loadFile_unusable (n : Z) (m0 : uvMetadata) (s : state)
  (content : list byte) :
  n = 1 \/ n = 2 ->
  no_fault 2 (faults s) = true ->
  files s !! filenameOf n = Some content ->
  (METADATA_CONTENT_SIZE <= length content)%nat ->
  (decode (take METADATA_CONTENT_SIZE content) zero_metadata).1 <> OK \/
  version (decode (take METADATA_CONTENT_SIZE content) zero_metadata).2 = 0 ->
  exists rv r s',
    loadFile n m0 s = Some ((rv, r), s') /\
    (rv = RAFT_MALFORMED \/ rv = RAFT_CORRUPT).
Proof.
  intros Hn Hq Hd Hl Hbad. apply no_fault_S in Hq as [Hf1 Hq].
  apply no_fault_S in Hq as [Hf2 _].
  destruct (decode (take METADATA_CONTENT_SIZE content) zero_metadata)
    as [rv r] eqn:Hdec. cbn [fst snd] in Hbad.
  unfold loadFile. rewrite slot_index_check by assumption.
  rewrite (bind_run _ _ _ _ _ (assert_true s)).
  rewrite (bind_run _ _ _ _ _ (UvFsFileExists_present _ _ _ Hf1 Hd)).
  cbn [nonzero negb].
  rewrite (bind_run _ _ _ _ _
             (UvFsReadFileInto_full _ content _ (entered s _) Hf2 Hd Hl)).
  cbn [nonzero]. rewrite Hdec.
  destruct (nonzero rv) eqn:Nrv.
  - assert (Hrv : rv <> OK) by (intros ->; discriminate Nrv).
    destruct (decode_failure _ _ _ _ Hdec Hrv) as (-> & _).
    eexists _, _, _. split; [reflexivity | auto].
  - destruct rv; try discriminate Nrv.
    destruct Hbad as [Hbad | Hz]; [by destruct Hbad |].
    rewrite Hz. eexists _, _, _. split; [reflexivity | auto].
Qed.

(** X19: recovery does not fall back on the other slot.  When one of the two
    slot files is there in full but is unusable (its tag is refused, or it
    decodes to version zero) and the filesystem does not fail,
    [uvMetadataLoad] fails with [RAFT_MALFORMED] or [RAFT_CORRUPT], whatever
    the other slot holds, and changes nothing. *)
Theorem load_no_fallback (p : positive) (s : state) (n : Z)
  (content : list byte) :
  n = 1 \/ n = 2 ->
  no_fault 4 (faults s) = true ->
  files s !! filenameOf n = Some content ->
  (METADATA_CONTENT_SIZE <= length content)%nat ->
  (decode (take METADATA_CONTENT_SIZE content) zero_metadata).1 <> OK \/
  version (decode (take METADATA_CONTENT_SIZE content) zero_metadata).2 = 0 ->
  exists rv s',
    uvMetadataLoad p s = Some (rv, s') /\
    (rv = RAFT_MALFORMED \/ rv = RAFT_CORRUPT) /\
    mem s' = mem s /\ files s' = files s /\ writes s' = writes s.
Proof.
  intros Hn Hq Hd Hl Hbad.
  assert (Hq3 : no_fault 3 (faults s) = true) by (by apply no_fault_weaken).
  assert (Hq2 : no_fault 2 (faults s) = true) by (by apply no_fault_weaken).
  assert (Hfail : forall rv s', uvMetadataLoad p s = Some (rv, s') ->
            rv = RAFT_MALFORMED \/ rv = RAFT_CORRUPT ->
            mem s' = mem s /\ files s' = files s /\ writes s' = writes s).
  { intros rv s' Hrun Hrv.
    destruct (uvMetadataLoad_inv p s s' rv Hrun)
      as [(r1 & L1 & _) | [(r1 & s1 & s1' & r2 & L1 & G1 & L2 & _)
         | [(r1 & r2 & Hread & _) | (r1 & r2 & s2 & _ & _ & _ & Hens)]]].
    - by apply loadFile_frame in L1.
    - apply loadFile_frame in L1 as (? & ? & ?).
      apply loadFile_frame in L2 as (? & ? & ?).
      apply logMetadata_run in G1 as (? & ? & ? & _).
      split; [congruence |]. split; congruence.
    - destruct (slots_read_frame _ _ _ _ Hread) as (? & ? & ? & _). auto.
    - apply ensure_codes in Hens. destruct Hrv, Hens; congruence. }
  assert (Hres : exists rv s', uvMetadataLoad p s = Some (rv, s') /\
            (rv = RAFT_MALFORMED \/ rv = RAFT_CORRUPT)).
  { destruct Hn as [-> | ->].
    - destruct (loadFile_unusable 1 indeterminate s content)
        as (rv & r & s1 & L1 & Hrv); auto.
      exists rv, s1. split; [| exact Hrv]. unfold uvMetadataLoad.
      rewrite (bind_run _ _ _ _ _ L1). by destruct Hrv as [-> | ->].
    - destruct (loadFile_no_fault 1 indeterminate s)
        as (rv1 & r1 & s1 & L1 & Hrv1 & Hfs); auto.
      unfold uvMetadataLoad. rewrite (bind_run _ _ _ _ _ L1).
      destruct Hrv1 as [-> | Hrv1];
        [| exists rv1, s1; split; [by destruct Hrv1 as [-> | ->] | exact Hrv1]].
      cbn [nonzero].
      rewrite (bind_run _ _ _ _ _ (eq_refl : logMetadata "1" r1 s1 = Some (tt, _))).
      destruct (loadFile_frame _ _ _ _ _ L1) as (_ & Hfiles & _).
      destruct (loadFile_unusable 2 indeterminate
                  (logged s1 (metadata_record "1" r1)) content)
        as (rv & r & s2 & L2 & Hrv); auto.
      + cbn [faults logged].
        apply no_fault_S in Hq as [_ Hq].
        destruct Hfs as [-> | ->].
        * by apply no_fault_weaken.
        * by apply no_fault_S in Hq as [_ Hq].
      + cbn [files logged]. by rewrite Hfiles.
      + exists rv, s2. split; [| exact Hrv].
        rewrite (bind_run _ _ _ _ _ L2). by destruct Hrv as [-> | ->]. }
  destruct Hres as (rv & s' & Hrun & Hrv).
  exists rv, s'. split; [exact Hrun |]. split; [exact Hrv |]. eauto.
Qed.

Lemma load_no_fallback_witness :
  exists rv s',
    uvMetadataLoad caller
      (scenario (<["metadata2" := bad_tag_buffer]> resume_dir))
      = Some (rv, s') /\
    (rv = RAFT_MALFORMED \/ rv = RAFT_CORRUPT) /\
    mem s' = mem (scenario (<["metadata2" := bad_tag_buffer]> resume_dir)) /\
    files s' = files (scenario (<["metadata2" := bad_tag_buffer]> resume_dir)) /\
    writes s' = writes (scenario (<["metadata2" := bad_tag_buffer]> resume_dir)).
Proof.
  apply (load_no_fallback caller
           (scenario (<["metadata2" := bad_tag_buffer]> resume_dir)) 2
           bad_tag_buffer).
  - by right.
  - reflexivity.
  - vm_compute. reflexivity.
  - vm_compute. lia.
  - left. vm_compute. discriminate.
Defined.

(** The run of [uvMetadataLoad] once both slots are read with versions that
    differ or are both zero, when the normalization neither wraps the version
    around nor meets a failure. *)
Lemma uvMetadataLoad_run (p : positive) (s s2 : state)
  (m0 r1 r2 : uvMetadata) :
  mem s !! p = Some m0 ->
  slots_read s r1 r2 s2 ->
  (version r1 = version r2 -> version r1 = 0) ->
  version (authoritative r1 r2) + 2 < 2 ^ 64 ->
  no_fault 3 (faults s2) = true ->
  uvMetadataLoad p s =
    let r := authoritative r1 r2 in
    Some (OK,
          entered (stored (stored (set_mem s2 (<[p := r]> (mem s2))) p
                                  (set_version r (version r + 1)))
                          p (set_version r (version r + 2)))
                  SyncDir).
Proof.
  intros Hp Hread Hv Hmax Hq.
  destruct (slots_read_frame _ _ _ _ Hread) as (Hm & _ & _ & V1 & V2).
  assert (Hp2 : mem s2 !! p = Some m0) by (by rewrite Hm).
  unfold authoritative in *.
  destruct (Z.eq_dec (version r1) (version r2)) as [Heq | Hne].
  - assert (Hz : version r1 = 0) by auto.
    assert (Hz2 : version r2 = 0) by lia.
    rewrite Hz, Hz2 in *. cbn [Z.eqb andb] in *.
    rewrite (uvMetadataLoad_both_zero p s s2 r1 r2 m0 Hread Hz Hz2 Hp).
    erewrite bind_run; cycle 1.
    { apply (ensure_run p _ zero_metadata);
        [apply lookup_insert_eq | cbn; lia | exact Hmax | exact Hq]. }
    reflexivity.
  - assert (E0 : (version r1 =? 0) && (version r2 =? 0) = false) by lia.
    rewrite E0 in *.
    set (r := if version r1 >? version r2 then r1 else r2) in *.
    assert (Vr : valid r)
      by (unfold r; destruct (version r1 >? version r2); assumption).
    rewrite (uvMetadataLoad_unequal p s s2 r1 r2 Hread Hne). fold r.
    rewrite (bind_run _ _ _ _ _ (assign_run _ _ r _ Hp2)).
    erewrite bind_run; cycle 1.
    { apply (ensure_run p _ r);
        [apply lookup_insert_eq | apply Vr | exact Hmax | exact Hq]. }
    reflexivity.
Qed.

Lemma valid_set_version (m : uvMetadata) (v : Z) :
  valid m -> is_u64 v -> valid (set_version m v).
Proof. intros (_ & Ht & Hf) Hv. unfold valid. cbn. auto. Qed.

Lemma decode_take_encode (m : uvMetadata) :
  valid m ->
  decode (take METADATA_CONTENT_SIZE (encode m)) zero_metadata = (OK, m).
Proof.
  intros Vm. rewrite take_ge by (by rewrite length_encode).
  by apply decode_encode.
Qed.

(** Which of the two files holds which record of an alternating pair. *)
Lemma alternating_files (dir : gmap string (list byte)) (a b : uvMetadata) :
  alternating dir a b ->
  (dir !! "metadata1" = Some (encode a) /\
   dir !! "metadata2" = Some (encode b)) \/
  (dir !! "metadata1" = Some (encode b) /\
   dir !! "metadata2" = Some (encode a)).
Proof.
  intros (Va & Vb & H0 & Hs & Hmax & Fa & Fb).
  rewrite slot_file_small in Fa by lia. rewrite slot_file_small in Fb by lia.
  rewrite Hs in Fb. change (version a + 1) with (Z.succ (version a)) in Fb.
  rewrite Z.odd_succ, <- Z.negb_odd in Fb.
  destruct (Z.odd (version a)); cbn [negb] in Fb; auto.
Qed.

(** Two writes in a row below 2^31 leave the directory alternating. *)
Lemma alternating_after_two_writes (dir : gmap string (list byte))
  (r : uvMetadata) :
  valid r ->
  version r + 2 < 2 ^ 31 ->
  let w1 := set_version r (version r + 1) in
  let w2 := set_version r (version r + 2) in
  alternating
    (<[slot_file (version w2) := encode w2]>
       (<[slot_file (version w1) := encode w1]> dir)) w1 w2.
Proof.
  intros Vr Hmax w1 w2.
  assert (H0 : 0 <= version r) by apply Vr.
  assert (Hne : slot_file (version w1) <> slot_file (version w2)).
  { cbn [version set_version w1 w2].
    replace (version r + 2) with (version r + 1 + 1) by lia.
    apply slot_file_alternates; lia. }
  unfold alternating. cbn [version set_version w1 w2] in *.
  split; [apply valid_set_version; [exact Vr | unfold is_u64; lia] |].
  split; [apply valid_set_version; [exact Vr | unfold is_u64; lia] |].
  split; [lia |]. split; [lia |]. split; [lia |].
  split.
  - rewrite lookup_insert_ne by (by apply not_eq_sym).
    apply lookup_insert_eq.
  - apply lookup_insert_eq.
Qed.

Lemma authoritative_adjacent (a b : uvMetadata) :
  0 < version a ->
  version b = version a + 1 ->
  authoritative a b = b /\ authoritative b a = b.
Proof.
  intros H0 Hs. unfold authoritative.
  assert (E1 : (version a =? 0) = false) by lia.
  assert (E2 : (version b =? 0) = false) by lia.
  assert (E3 : (version a >? version b) = false) by lia.
  assert (E4 : (version b >? version a) = true) by lia.
  by rewrite E1, E2, E3, E4.
Qed.

Lemma no_fault_7_split (script : list bool) :
  no_fault 7 script = true ->
  no_fault 4 script = true /\
  no_fault 3 (tl (tl (tl (tl script)))) = true.
Proof.
  intros H. split.
  - by do 3 apply no_fault_weaken.
  - do 4 (apply no_fault_S in H as [_ H]). exact H.
Qed.

(** Recovery from an alternating directory, when the filesystem does not
    fail: the later record wins and the directory is left alternating two
    versions further. *)
Lemma uvMetadataLoad_alternating (p : positive) (s : state)
  (m0 a b : uvMetadata) :
  mem s !! p = Some m0 ->
  alternating (files s) a b ->
  version b + 2 < 2 ^ 31 ->
  no_fault 7 (faults s) = true ->
  let w1 := set_version b (version b + 1) in
  let w2 := set_version b (version b + 2) in
  exists s',
    uvMetadataLoad p s = Some (OK, s') /\
    mem s' !! p = Some w2 /\
    alternating (files s') w1 w2 /\
    writes s' =
      writes s ++ [MakeOrReplaceFile (slot_file (version w1)) (encode w1);
                   MakeOrReplaceFile (slot_file (version w2)) (encode w2)].
Proof.
  intros Hp Halt Hmax Hq w1 w2.
  destruct (no_fault_7_split _ Hq) as (Hq4 & Hq3).
  pose proof Halt as (Va & Vb & H0 & Hs & Hb & _ & _).
  destruct (authoritative_adjacent a b H0 Hs) as (Eab & Eba).
  assert (Hfinal : forall r1 r2 : uvMetadata,
            slots_read s r1 r2 (after_two_reads s r1 r2) ->
            version r1 <> version r2 ->
            authoritative r1 r2 = b ->
            exists s',
              uvMetadataLoad p s = Some (OK, s') /\
              mem s' !! p = Some w2 /\
              alternating (files s') w1 w2 /\
              writes s' =
                writes s ++
                [MakeOrReplaceFile (slot_file (version w1)) (encode w1);
                 MakeOrReplaceFile (slot_file (version w2)) (encode w2)]).
  { intros r1 r2 Hread Hne Eau.
    rewrite (uvMetadataLoad_run p s _ m0 r1 r2 Hp Hread);
      [| by intros ? | rewrite Eau; lia | exact Hq3].
    cbn zeta. rewrite Eau. fold w1 w2.
    eexists. split; [reflexivity |]. split; [| split].
    - cbn. apply lookup_insert_eq.
    - cbn [files entered stored set_mem after_two_reads logged].
      apply alternating_after_two_writes; [exact Vb | exact Hmax].
    - unfold after_two_reads. autorewrite with writes. cbn [is_write].
      rewrite !app_nil_r, <- app_assoc. reflexivity. }
  destruct (alternating_files _ _ _ Halt) as [(F1 & F2) | (F1 & F2)].
  - apply (Hfinal a b); [| lia | exact Eab].
    apply (slots_read_present s (encode a) (encode b)); try assumption;
      try (by rewrite length_encode); try (by apply decode_take_encode); lia.
  - apply (Hfinal b a); [| lia | exact Eba].
    apply (slots_read_present s (encode b) (encode a)); try assumption;
      try (by rewrite length_encode); try (by apply decode_take_encode); lia.
Qed.

(** The directory after a store in an alternating directory of the record
    that comes next: the store went to the slot file of the older record. *)
Lemma alternating_after_store (dir : gmap string (list byte))
  (a b m : uvMetadata) :
  alternating dir a b ->
  valid m ->
  version m = version b + 1 ->
  version m < 2 ^ 31 ->
  slot_file (version m) = slot_file (version a) /\
  slot_file (version m) <> slot_file (version b) /\
  alternating (<[slot_file (version m) := encode m]> dir) b m.
Proof.
  intros (Va & Vb & H0 & Hs & Hb & Fa & Fb) Vm Hm Hmax.
  assert (Hne : slot_file (version b) <> slot_file (version m)).
  { rewrite Hm. apply slot_file_alternates; lia. }
  assert (Heq : slot_file (version m) = slot_file (version a)).
  { rewrite !slot_file_small by lia. rewrite Hm, Hs.
    replace (version a + 1 + 1) with (Z.succ (Z.succ (version a))) by lia.
    by rewrite Z.odd_succ_succ. }
  split; [exact Heq |]. split; [by apply not_eq_sym |].
  unfold alternating. repeat split; try assumption; try lia;
    try apply Vb; try apply Vm.
  - by rewrite lookup_insert_ne by (by apply not_eq_sym).
  - apply lookup_insert_eq.
Qed.

(** The end of a recovery whose reads are done, below 2^31. *)
Lemma uvMetadataLoad_finish (p : positive) (s s2 : state)
  (m0 r1 r2 r : uvMetadata) :
  mem s !! p = Some m0 ->
  slots_read s r1 r2 s2 ->
  (version r1 = version r2 -> version r1 = 0) ->
  authoritative r1 r2 = r ->
  version r + 2 < 2 ^ 31 ->
  no_fault 3 (faults s2) = true ->
  let w1 := set_version r (version r + 1) in
  let w2 := set_version r (version r + 2) in
  exists s',
    uvMetadataLoad p s = Some (OK, s') /\
    mem s' !! p = Some w2 /\
    alternating (files s') w1 w2.
Proof.
  intros Hp Hread Hv Eau Hmax Hq w1 w2.
  destruct (slots_read_frame _ _ _ _ Hread) as (_ & Hfs & _ & V1 & V2).
  assert (Vr : valid r).
  { rewrite <- Eau. unfold authoritative.
    destruct ((version r1 =? 0) && (version r2 =? 0));
      [apply valid_zero_metadata |].
    destruct (version r1 >? version r2); assumption. }
  rewrite (uvMetadataLoad_run p s s2 m0 r1 r2 Hp Hread Hv);
    [| rewrite Eau; lia | exact Hq].
  cbn zeta. rewrite Eau. fold w1 w2.
  eexists. split; [reflexivity |]. split.
  - cbn. apply lookup_insert_eq.
  - cbn [files entered stored set_mem].
    by apply alternating_after_two_writes.
Qed.

Lemma authoritative_single (r : uvMetadata) :
  0 < version r ->
  authoritative r zero_metadata = r /\ authoritative zero_metadata r = r.
Proof.
  intros H0. unfold authoritative. cbn [version zero_metadata].
  assert (E1 : (version r =? 0) = false) by lia.
  assert (E2 : (version r >? 0) = true) by lia.
  assert (E3 : (0 >? version r) = false) by lia.
  rewrite E1, E2, E3. cbn. auto.
Qed.

(** X20: one usable slot is enough, and recovery repairs the other.  When
    one slot file holds the encoding of a record with a version above zero
    and the other slot file is absent or shorter than 32 bytes (a torn
    write), [uvMetadataLoad], the filesystem not failing, returns [0], hands
    back that record at its version plus 2, and leaves the directory with
    both slot files written in full, at the versions plus 1 and plus 2. *)
Theorem load_one_slot (p : positive) (s : state) (n : Z)
  (m0 r : uvMetadata) :
  mem s !! p = Some m0 ->
  n = 1 \/ n = 2 ->
  valid r ->
  0 < version r ->
  version r + 2 < 2 ^ 31 ->
  files s !! filenameOf n = Some (encode r) ->
  (files s !! filenameOf (3 - n) = None \/
   exists torn, files s !! filenameOf (3 - n) = Some torn /\
                (length torn < METADATA_CONTENT_SIZE)%nat) ->
  no_fault 7 (faults s) = true ->
  let w1 := set_version r (version r + 1) in
  let w2 := set_version r (version r + 2) in
  exists s',
    uvMetadataLoad p s = Some (OK, s') /\
    mem s' !! p = Some w2 /\
    alternating (files s') w1 w2.
Proof.
  intros Hp Hn Vr H0 Hmax Hgood Hother Hq w1 w2.
  destruct (authoritative_single r H0) as (Erz & Ezr).
  pose proof (length_encode r) as Hlen.
  pose proof (decode_take_encode r Vr) as Hdec.
  pose proof Hq as Hq'.
  apply no_fault_S in Hq' as [Hf1 Hq1]. apply no_fault_S in Hq1 as [Hf2 Hq2].
  apply no_fault_S in Hq2 as [Hf3 Hq3].
  assert (Hq3' : no_fault 3 (tl (tl (tl (faults s)))) = true)
    by (by apply no_fault_weaken).
  apply no_fault_S in Hq3 as [Hf4 Hq4].
  destruct Hn as [-> | ->]; change (3 - 1) with 2 in Hother;
    change (3 - 2) with 1 in Hother.
  - (* the first slot is the good one *)
    assert (L1 : loadFile 1 indeterminate s =
                 Some ((OK, r),
                       entered (entered s (FileExists (filenameOf 1)))
                               (ReadFileInto (filenameOf 1)
                                             METADATA_CONTENT_SIZE))).
    { apply (loadFile_present 1 _ r s (encode r)); try assumption;
        [by left | by repeat apply no_fault_cons | lia | lia]. }
    destruct Hother as [Habs | (torn & Htorn & Hshort)].
    + eapply (uvMetadataLoad_finish p s _ m0 r zero_metadata r Hp);
        [| cbn; lia | exact Erz | exact Hmax |].
      * eexists _, _, _.
        split; [exact L1 |]. split; [reflexivity |].
        split; [| reflexivity].
        apply (loadFile_absent 2); [by right | exact Hf3 | exact Habs].
      * exact Hq3'.
    + eapply (uvMetadataLoad_finish p s _ m0 r zero_metadata r Hp);
        [| cbn; lia | exact Erz | exact Hmax |].
      * eexists _, _, _.
        split; [exact L1 |]. split; [reflexivity |].
        split; [| reflexivity].
        apply (loadFile_short 2 _ _ torn);
          [by right | by repeat apply no_fault_cons | exact Htorn
          | exact Hshort].
      * exact Hq4.
  - (* the second slot is the good one *)
    destruct Hother as [Habs | (torn & Htorn & Hshort)].
    + eapply (uvMetadataLoad_finish p s _ m0 zero_metadata r r Hp);
        [| cbn; lia | exact Ezr | exact Hmax |].
      * eexists _, _, _.
        split; [apply (loadFile_absent 1); [by left | exact Hf1 | exact Habs] |].
        split; [reflexivity |]. split; [| reflexivity].
        apply (loadFile_present 2 _ r _ (encode r)); try assumption;
          [by right | by repeat apply no_fault_cons | lia | lia].
      * exact Hq3'.
    + eapply (uvMetadataLoad_finish p s _ m0 zero_metadata r r Hp);
        [| cbn; lia | exact Ezr | exact Hmax |].
      * eexists _, _, _.
        split; [apply (loadFile_short 1 _ _ torn);
                  [by left | by repeat apply no_fault_cons | exact Htorn
                  | exact Hshort] |].
        split; [reflexivity |]. split; [| reflexivity].
        apply (loadFile_present 2 _ r _ (encode r)); try assumption;
          [by right | by repeat apply no_fault_cons | lia | lia].
      * exact Hq4.
Qed.

Lemma load_one_slot_witness :
  exists s',
    uvMetadataLoad caller (scenario torn_dir) = Some (OK, s') /\
    mem s' !! caller = Some (mkMetadata 5 2 5) /\
    alternating (files s') (mkMetadata 4 2 5) (mkMetadata 5 2 5).
Proof.
  apply (load_one_slot caller (scenario torn_dir) 1 (mkMetadata 7 7 7)
           (mkMetadata 3 2 5)).
  - reflexivity.
  - by left.
  - unfold valid, is_u64. cbn. lia.
  - cbn. lia.
  - cbn. lia.
  - reflexivity.
  - right. exists [x01; x00; x00]. split; [reflexivity | cbn; lia].
  - reflexivity.
Defined.

(** X21: whatever the directory held, a run of [uvMetadataLoad] that returns
    [0] with a version below 2^31 leaves it alternating: the record handed
    back is in the slot file of its version, and the same record one version
    earlier is in the other slot file. *)
Theorem load_normalizes (p : positive) (s s' : state) (m0 w : uvMetadata) :
  mem s !! p = Some m0 ->
  uvMetadataLoad p s = Some (OK, s') ->
  mem s' !! p = Some w ->
  version w < 2 ^ 31 ->
  exists w1,
    version w1 + 1 = version w /\ term w1 = term w /\
    voted_for w1 = voted_for w /\
    alternating (files s') w1 w.
Proof.
  intros Hp Hrun Hw Hmax.
  destruct (uvMetadataLoad_OK p s s' m0 Hp Hrun)
    as (r1 & r2 & s2 & Hread & _ & _ & Hw2 & _ & Hfs).
  destruct (slots_read_frame _ _ _ _ Hread) as (_ & _ & _ & V1 & V2).
  set (r := authoritative r1 r2) in *.
  assert (Vr : valid r).
  { unfold r, authoritative.
    destruct ((version r1 =? 0) && (version r2 =? 0));
      [apply valid_zero_metadata |].
    destruct (version r1 >? version r2); assumption. }
  rewrite Hw in Hw2. injection Hw2 as ->.
  exists (set_version r (version r + 1)).
  cbn [version term voted_for set_version] in *.
  split; [lia |]. split; [reflexivity |]. split; [reflexivity |].
  rewrite Hfs. by apply alternating_after_two_writes.
Qed.

Lemma load_normalizes_witness :
  exists w1,
    version w1 + 1 = version (mkMetadata 2 0 0) /\
    term w1 = term (mkMetadata 2 0 0) /\
    voted_for w1 = voted_for (mkMetadata 2 0 0) /\
    alternating
      (files (state_after (uvMetadataLoad caller) (scenario fresh_dir)))
      w1 (mkMetadata 2 0 0).
Proof.
  apply (load_normalizes caller (scenario fresh_dir) _ (mkMetadata 7 7 7)).
  - reflexivity.
  - vm_compute. reflexivity.
  - vm_compute. reflexivity.
  - cbn. lia.
Defined.

(** X22: recovery keeps an alternating directory alternating.  From a
    directory that holds a record and its successor in their slot files,
    [uvMetadataLoad], the filesystem not failing, returns [0], hands back the
    successor at its version plus 2, and leaves the successor at its version
    plus 1 and plus 2 in the slot files. *)
Theorem load_from_alternating (p : positive) (s : state)
  (m0 a b : uvMetadata) :
  mem s !! p = Some m0 ->
  alternating (files s) a b ->
  version b + 2 < 2 ^ 31 ->
  no_fault 7 (faults s) = true ->
  let w1 := set_version b (version b + 1) in
  let w2 := set_version b (version b + 2) in
  exists s',
    uvMetadataLoad p s = Some (OK, s') /\
    mem s' !! p = Some w2 /\
    alternating (files s') w1 w2 /\
    writes s' =
      writes s ++ [MakeOrReplaceFile (slot_file (version w1)) (encode w1);
                   MakeOrReplaceFile (slot_file (version w2)) (encode w2)].
Proof. exact (uvMetadataLoad_alternating p s m0 a b). Qed.

Lemma load_from_alternating_witness :
  let s := scenario resume_dir in
  let w1 := mkMetadata 5 2 5 in
  let w2 := mkMetadata 6 2 5 in
  exists s',
    uvMetadataLoad caller s = Some (OK, s') /\
    mem s' !! caller = Some w2 /\
    alternating (files s') w1 w2 /\
    writes s' =
      writes s ++ [MakeOrReplaceFile (slot_file 5) (encode w1);
                   MakeOrReplaceFile (slot_file 6) (encode w2)].
Proof.
  apply (load_from_alternating caller (scenario resume_dir)
           (mkMetadata 7 7 7) (mkMetadata 3 2 5) (mkMetadata 4 2 5)).
  - reflexivity.
  - unfold alternating, valid, is_u64. cbn [version term voted_for].
    repeat split; try lia; reflexivity.
  - cbn. lia.
  - reflexivity.
Defined.

(** X3: the file a store writes to, for every version above zero: the first
    slot file when the version is odd and its bit 31 is clear, the second
    slot file otherwise (every even version, and every version whose low 32
    bits make a negative [int]). *)
Theorem store_slot_rule (p : positive) (s : state) (m : uvMetadata) :
  mem s !! p = Some m ->
  0 < version m ->
  exists rv s',
    uvMetadataStore p s = Some (rv, s') /\
    calls s' =
      calls s ++
      [MakeOrReplaceFile
         (if Z.odd (version m) && (version m mod 2 ^ 32 <? 2 ^ 31)
          then "metadata1" else "metadata2")
         (encode m)].
Proof.
  intros Hp Hv. rewrite (uvMetadataStore_run p s m Hp Hv). cbn zeta.
  rewrite slot_file_spec.
  destruct (hd false (faults s)); eexists _, _; split; reflexivity.
Qed.

Lemma store_slot_rule_witness :
  exists rv s',
    uvMetadataStore caller (start (mkMetadata 4294967297 2 5) fresh_dir)
      = Some (rv, s') /\
    calls s' =
      calls (start (mkMetadata 4294967297 2 5) fresh_dir) ++
      [MakeOrReplaceFile
         (if Z.odd 4294967297 && (4294967297 mod 2 ^ 32 <? 2 ^ 31)
          then "metadata1" else "metadata2")
         (encode (mkMetadata 4294967297 2 5))].
Proof.
  apply (store_slot_rule caller (start (mkMetadata 4294967297 2 5) fresh_dir)
           (mkMetadata 4294967297 2 5)).
  - reflexivity.
  - cbn. lia.
Defined.

(** The slot file of the record that comes next in an alternating
    directory is that of the older record, also when the next version is
    2^31. *)
Lemma next_slot_in_alternating (dir : gmap string (list byte))
  (a b m : uvMetadata) :
  alternating dir a b ->
  version m = version b + 1 ->
  slot_file (version m) = slot_file (version a) /\
  slot_file (version m) <> slot_file (version b).
Proof.
  intros (Va & Vb & H0 & Hs & Hb & _ & _) Hm.
  destruct (Z.eq_dec (version m) (2 ^ 31)) as [Htop | Hlow].
  - assert (Ea : version a = 2 ^ 31 - 2) by lia.
    assert (Eb : version b = 2 ^ 31 - 1) by lia.
    rewrite Htop, Ea, Eb. split; [reflexivity | discriminate].
  - split.
    + rewrite !slot_file_small by lia. rewrite Hm, Hs.
      replace (version a + 1 + 1) with (Z.succ (Z.succ (version a))) by lia.
      by rewrite Z.odd_succ_succ.
    + rewrite Hm. apply not_eq_sym. apply slot_file_alternates; lia.
Qed.

(** X23: in an alternating directory a store of the record that comes next
    makes its one filesystem call on the slot file of the older record,
    which is not the file of the latest one.  When it returns [0], the
    latest record is still in its file and the stored record took the place
    of the older one; when the stored version is below 2^31, the directory
    then alternates one version further. *)
Theorem store_keeps_alternation (p : positive) (s s' : state)
  (a b m : uvMetadata) (rv : status) :
  alternating (files s) a b ->
  mem s !! p = Some m ->
  valid m ->
  version m = version b + 1 ->
  uvMetadataStore p s = Some (rv, s') ->
  slot_file (version m) = slot_file (version a) /\
  slot_file (version m) <> slot_file (version b) /\
  calls s' =
    calls s ++ [MakeOrReplaceFile (slot_file (version a)) (encode m)] /\
  (rv = OK ->
   files s' !! slot_file (version b) = Some (encode b) /\
   files s' !! slot_file (version a) = Some (encode m) /\
   (version m < 2 ^ 31 -> alternating (files s') b m)).
Proof.
  intros Halt Hp Vm Hm Hrun.
  destruct (next_slot_in_alternating _ a b m Halt Hm) as (Hsame & Hne).
  pose proof Halt as (_ & _ & H0 & Hs & _ & _ & Fb).
  rewrite (uvMetadataStore_run p s m Hp) in Hrun by lia. cbn zeta in Hrun.
  split; [exact Hsame |]. split; [exact Hne |].
  destruct (hd false (faults s)); injection Hrun as <- <-.
  - split; [by rewrite <- Hsame | discriminate].
  - split; [by rewrite <- Hsame |]. intros _.
    cbn [files set_files entered]. split; [| split].
    + by rewrite lookup_insert_ne.
    + rewrite <- Hsame. apply lookup_insert_eq.
    + intros Hmax.
      by destruct (alternating_after_store _ a b m Halt Vm Hm Hmax)
        as (_ & _ & Halt').
Qed.

Lemma store_keeps_alternation_witness :
  let s := start (mkMetadata 5 3 1) resume_dir in
  let s' := state_after (uvMetadataStore caller) s in
  slot_file 5 = slot_file 3 /\
  slot_file 5 <> slot_file 4 /\
  calls s' =
    calls s ++
    [MakeOrReplaceFile (slot_file 3) (encode (mkMetadata 5 3 1))] /\
  (OK = OK ->
   files s' !! slot_file 4 = Some (encode (mkMetadata 4 2 5)) /\
   files s' !! slot_file 3 = Some (encode (mkMetadata 5 3 1)) /\
   (5 < 2 ^ 31 ->
    alternating (files s') (mkMetadata 4 2 5) (mkMetadata 5 3 1))).
Proof.
  apply (store_keeps_alternation caller (start (mkMetadata 5 3 1) resume_dir)
           _ (mkMetadata 3 2 5) (mkMetadata 4 2 5) (mkMetadata 5 3 1) OK).
  - unfold alternating, valid, is_u64. cbn [version term voted_for].
    repeat split; try lia; reflexivity.
  - reflexivity.
  - unfold valid, is_u64. cbn. lia.
  - reflexivity.
  - vm_compute. reflexivity.
Defined.

(** Recovery from a directory whose two slot files hold whole records of
    unequal versions above zero, when the filesystem does not fail: the
    record of the greater version comes back, two versions further. *)
Lemma uvMetadataLoad_two_records (p : positive) (s : state)
  (m0 x y : uvMetadata) :
  mem s !! p = Some m0 ->
  files s !! "metadata1" = Some (encode x) ->
  files s !! "metadata2" = Some (encode y) ->
  valid x -> valid y ->
  0 < version x -> 0 < version y ->
  version x <> version y ->
  version (authoritative x y) + 2 < 2 ^ 64 ->
  no_fault 7 (faults s) = true ->
  exists s',
    uvMetadataLoad p s = Some (OK, s') /\
    mem s' !! p =
      Some (set_version (authoritative x y) (version (authoritative x y) + 2)).
Proof.
  intros Hp F1 F2 Vx Vy Hx Hy Hne Hmax Hq.
  destruct (no_fault_7_split _ Hq) as (Hq4 & Hq3).
  assert (Hread : slots_read s x y (after_two_reads s x y)).
  { apply (slots_read_present s (encode x) (encode y)); try assumption;
      try (by rewrite length_encode); try (by apply decode_take_encode); lia. }
  rewrite (uvMetadataLoad_run p s _ m0 x y Hp Hread);
    [| by intros ? | exact Hmax | exact Hq3].
  cbn zeta. eexists. split; [reflexivity |].
  cbn. apply lookup_insert_eq.
Qed.

(** X24: what was stored is what recovery finds.  In an alternating
    directory, a store of the next version of the record, with whatever term
    and vote, followed by [uvMetadataLoad], the filesystem not failing: both
    return [0] and the record handed back has the term and the vote that were
    stored, at the stored version plus 2. *)
Theorem store_then_load (p : positive) (s : state) (a b m : uvMetadata) :
  alternating (files s) a b ->
  mem s !! p = Some m ->
  valid m ->
  version m = version b + 1 ->
  no_fault 8 (faults s) = true ->
  exists s1 s2,
    uvMetadataStore p s = Some (OK, s1) /\
    uvMetadataLoad p s1 = Some (OK, s2) /\
    mem s2 !! p = Some (set_version m (version m + 2)).
Proof.
  intros Halt Hp Vm Hm Hq. apply no_fault_S in Hq as [Hf Hq].
  pose proof Halt as (Va & Vb & H0 & Hs & Hb & _ & _).
  rewrite (uvMetadataStore_run p s m Hp) by lia. cbn zeta. rewrite Hf.
  set (s1 := set_files _ _).
  assert (Hp1 : mem s1 !! p = Some m) by exact Hp.
  assert (Hq1 : no_fault 7 (faults s1) = true) by exact Hq.
  assert (Hwin : forall o : uvMetadata,
            0 < version o -> version o < version m ->
            authoritative m o = m /\ authoritative o m = m).
  { intros o Ho Hlt. unfold authoritative.
    assert (E1 : (version m =? 0) = false) by lia.
    assert (E2 : (version o =? 0) = false) by lia.
    assert (E3 : (version m >? version o) = true) by lia.
    assert (E4 : (version o >? version m) = false) by lia.
    by rewrite E1, E2, E3, E4. }
  assert (Hfinal : forall x y : uvMetadata,
            files s1 !! "metadata1" = Some (encode x) ->
            files s1 !! "metadata2" = Some (encode y) ->
            valid x -> valid y -> 0 < version x -> 0 < version y ->
            version x <> version y ->
            authoritative x y = m ->
            exists s2,
              uvMetadataLoad p s1 = Some (OK, s2) /\
              mem s2 !! p = Some (set_version m (version m + 2))).
  { intros x y F1 F2 Vx Vy Hx Hy Hne Eau.
    destruct (uvMetadataLoad_two_records p s1 m x y Hp1 F1 F2 Vx Vy Hx Hy Hne)
      as (s2 & Hrun & Hrec); [rewrite Eau; lia | exact Hq1 |].
    rewrite Eau in Hrec. by exists s2. }
  assert (Hload : exists s2,
            uvMetadataLoad p s1 = Some (OK, s2) /\
            mem s2 !! p = Some (set_version m (version m + 2))).
  { destruct (slot_file_range (version m)) as [E | E];
      destruct (alternating_files _ _ _ Halt) as [(F1 & F2) | (F1 & F2)].
    - apply (Hfinal m b); try assumption; try lia.
      + unfold s1. cbn [files set_files]. rewrite E. apply lookup_insert_eq.
      + unfold s1. cbn [files set_files]. rewrite E.
        by rewrite lookup_insert_ne.
      + apply Hwin; lia.
    - apply (Hfinal m a); try assumption; try lia.
      + unfold s1. cbn [files set_files]. rewrite E. apply lookup_insert_eq.
      + unfold s1. cbn [files set_files]. rewrite E.
        by rewrite lookup_insert_ne.
      + apply Hwin; lia.
    - apply (Hfinal a m); try assumption; try lia.
      + unfold s1. cbn [files set_files]. rewrite E.
        by rewrite lookup_insert_ne.
      + unfold s1. cbn [files set_files]. rewrite E. apply lookup_insert_eq.
      + apply Hwin; lia.
    - apply (Hfinal b m); try assumption; try lia.
      + unfold s1. cbn [files set_files]. rewrite E.
        by rewrite lookup_insert_ne.
      + unfold s1. cbn [files set_files]. rewrite E. apply lookup_insert_eq.
      + apply Hwin; lia. }
  destruct Hload as (s2 & Hrun & Hrec). exists s1, s2. auto.
Qed.

Lemma store_then_load_witness :
  exists s1 s2,
    uvMetadataStore caller (start (mkMetadata 5 3 1) resume_dir)
      = Some (OK, s1) /\
    uvMetadataLoad caller s1 = Some (OK, s2) /\
    mem s2 !! caller = Some (mkMetadata 7 3 1).
Proof.
  apply (store_then_load caller (start (mkMetadata 5 3 1) resume_dir)
           (mkMetadata 3 2 5) (mkMetadata 4 2 5) (mkMetadata 5 3 1)).
  - unfold alternating, valid, is_u64. cbn [version term voted_for].
    repeat split; try lia; reflexivity.
  - reflexivity.
  - unfold valid, is_u64. cbn. lia.
  - reflexivity.
  - reflexivity.
Defined.

(** X25: recovery can be run again on what it left.  After a run of
    [uvMetadataLoad] that returned [0], a second run, the filesystem not
    failing and the versions staying below 2^31, returns [0] as well and
    hands back the same term and vote, two versions further. *)
Theorem load_twice (p : positive) (s s1 : state) (m0 w : uvMetadata) :
  mem s !! p = Some m0 ->
  uvMetadataLoad p s = Some (OK, s1) ->
  mem s1 !! p = Some w ->
  version w + 2 < 2 ^ 31 ->
  no_fault 7 (faults s1) = true ->
  exists s2,
    uvMetadataLoad p s1 = Some (OK, s2) /\
    mem s2 !! p = Some (set_version w (version w + 2)).
Proof.
  intros Hp Hrun Hw Hmax Hq.
  destruct (uvMetadataLoad_OK p s s1 m0 Hp Hrun)
    as (r1 & r2 & s2 & Hread & _ & _ & Hw2 & _ & Hfs).
  destruct (slots_read_frame _ _ _ _ Hread) as (_ & _ & _ & V1 & V2).
  set (r := authoritative r1 r2) in *.
  assert (Vr : valid r).
  { unfold r, authoritative.
    destruct ((version r1 =? 0) && (version r2 =? 0));
      [apply valid_zero_metadata |].
    destruct (version r1 >? version r2); assumption. }
  rewrite Hw in Hw2. injection Hw2 as ->.
  cbn [version set_version] in Hmax.
  assert (Halt : alternating (files s1) (set_version r (version r + 1))
                             (set_version r (version r + 2))).
  { rewrite Hfs. apply alternating_after_two_writes; [exact Vr | lia]. }
  destruct (uvMetadataLoad_alternating p s1 _ _ _ Hw Halt)
    as (s3 & Hrun2 & Hw3 & _); [cbn; lia | exact Hq |].
  exists s3. auto.
Qed.

Lemma load_twice_witness :
  exists s2,
    uvMetadataLoad caller
      (state_after (uvMetadataLoad caller) (scenario torn_dir))
      = Some (OK, s2) /\
    mem s2 !! caller = Some (set_version (mkMetadata 5 2 5) (5 + 2)).
Proof.
  apply (load_twice caller (scenario torn_dir) _ (mkMetadata 7 7 7)
           (mkMetadata 5 2 5)).
  - reflexivity.
  - vm_compute. reflexivity.
  - vm_compute. reflexivity.
  - cbn. lia.
  - vm_compute. reflexivity.
Defined.
